(** * Your-Work Innovations website server (main.py): a shallow embedding

    The script is a thin wrapper over Python's [http.server]: a request
    handler class that injects CORS and security headers and maps [/] to
    [/index.html], and a bootstrap that resolves the port, checks the
    required files, constructs a [socketserver.TCPServer] and serves.

    Everything the script does is an effect, so the embedding is an
    exception-and-trace monad over an explicit description of the
    operating system (environment variables, files, which addresses can
    be bound, how the serve loop ends).  The standard-library pieces the
    script calls ([int], [socket.bind], [BaseHTTPRequestHandler]) are
    modelled after CPython 3.11. *)

From Stdlib Require Import ZArith Lia Ascii String.
From stdpp Require Import base strings gmap pretty list.

(** ** Python values and built-ins *)

Module Py.

(** The exceptions that occur in the script.  [KeyboardInterrupt] derives
    from [BaseException] only; every other one derives from [Exception].
    The string is what [str(e)] prints. *)
Inductive exn : Type :=
  | OSError (msg : string)
  | ValueError (msg : string)
  | OverflowError (msg : string)
  | KeyboardInterrupt
  | OtherException (msg : string).

Definition is_OSError (e : exn) : bool :=
  match e with OSError _ => true | _ => false end.

Definition is_KeyboardInterrupt (e : exn) : bool :=
  match e with KeyboardInterrupt => true | _ => false end.

(** [isinstance(e, Exception)] *)
Definition is_Exception (e : exn) : bool := negb (is_KeyboardInterrupt e).

Definition is_ValueError (e : exn) : bool :=
  match e with ValueError _ => true | _ => false end.

(** [str(e)] *)
Definition str_exn (e : exn) : string :=
  match e with
  | OSError m | ValueError m | OverflowError m | OtherException m => m
  | KeyboardInterrupt => ""
  end.

(** [str(n)] and the [{n}] of an f-string, for an [int]. *)
Definition str (n : Z) : string := pretty n.

Definition nl : string := String (Ascii.ascii_of_nat 10) EmptyString.

(** [c * n] for a one-character string. *)
Definition repeat_char (c : ascii) (n : nat) : string :=
  string_of_list_ascii (replicate n c).

(** *** Text

    A [str] is written as the UTF-8 of its code points, and [chars]
    reads the code points back.  A byte that is not part of a
    well-formed sequence stands for the lone surrogate U+DC80..U+DCFF
    that the [surrogateescape] error handler makes of it when the
    interpreter decodes the environment; [text] is the way back.
    [latin1] is [str(b, 'iso-8859-1')]: one code point per byte. *)

Local Open Scope Z_scope.

Definition byte_value (c : ascii) : Z := Z.of_N (Ascii.N_of_ascii c).

Definition byte_of (b : Z) : ascii := Ascii.ascii_of_N (Z.to_N b).

Definition between (lo x hi : Z) : bool := (lo <=? x) && (x <=? hi).

Definition continuation (b : Z) : bool := between 128 b 191.

Definition two_bytes (b0 b1 : Z) : bool :=
  between 194 b0 223 && continuation b1.

Definition three_bytes (b0 b1 b2 : Z) : bool :=
  ((b0 =? 224) && between 160 b1 191
   || between 225 b0 236 && continuation b1
   || (b0 =? 237) && between 128 b1 159
   || between 238 b0 239 && continuation b1)
  && continuation b2.

Definition four_bytes (b0 b1 b2 b3 : Z) : bool :=
  ((b0 =? 240) && between 144 b1 191
   || between 241 b0 243 && continuation b1
   || (b0 =? 244) && between 128 b1 143)
  && continuation b2 && continuation b3.

(** The lone surrogate for a byte that cannot be decoded. *)
Definition escaped (b : Z) : Z := 56320 + b.

(** [bytes.decode('utf-8', 'surrogateescape')]: shortest-form sequences
    of two, three and four bytes, no encoded surrogate, nothing above
    U+10FFFF. *)

Fixpoint decode_utf8 (l : list Z) : list Z :=
  match l with
  | [] => []
  | b0 :: l1 =>
      if b0 <? 128 then b0 :: decode_utf8 l1
      else
        match l1 with
        | b1 :: l2 =>
            if two_bytes b0 b1
            then ((b0 - 192) * 64 + (b1 - 128)) :: decode_utf8 l2
            else
              match l2 with
              | b2 :: l3 =>
                  if three_bytes b0 b1 b2
                  then ((b0 - 224) * 4096 + (b1 - 128) * 64 + (b2 - 128))
                       :: decode_utf8 l3
                  else
                    match l3 with
                    | b3 :: l4 =>
                        if four_bytes b0 b1 b2 b3
                        then ((b0 - 240) * 262144 + (b1 - 128) * 4096
                              + (b2 - 128) * 64 + (b3 - 128))
                             :: decode_utf8 l4
                        else escaped b0 :: decode_utf8 l1
                    | [] => escaped b0 :: decode_utf8 l1
                    end
              | [] => escaped b0 :: decode_utf8 l1
              end
        | [] => [escaped b0]
        end
  end.

Definition chars (s : string) : list Z :=
  decode_utf8 (byte_value <$> list_ascii_of_string s).

Definition latin1 (s : string) : list Z :=
  byte_value <$> list_ascii_of_string s.

(** [str.encode('utf-8', 'surrogateescape')] for one code point. *)
Definition encode_utf8 (c : Z) : list Z :=
  if c <? 128 then [c]
  else if c <? 2048 then [192 + c / 64; 128 + c mod 64]
  else if between 56448 c 56575 then [c - 56320]
  else if c <? 65536
  then [224 + c / 4096; 128 + (c / 64) mod 64; 128 + c mod 64]
  else [240 + c / 262144; 128 + (c / 4096) mod 64;
        128 + (c / 64) mod 64; 128 + c mod 64].

Definition text (l : list Z) : string :=
  string_of_list_ascii (byte_of <$> concat (encode_utf8 <$> l)).

(** [c.isspace()]: the white space of Unicode 14. *)
Definition isspace (c : Z) : bool :=
  between 9 c 13 || between 28 c 32 || (c =? 133) || (c =? 160)
  || (c =? 5760) || between 8192 c 8202 || (c =? 8232) || (c =? 8233)
  || (c =? 8239) || (c =? 8287) || (c =? 12288).

(** The digit zero of every run of decimal digits (general category Nd)
    of Unicode 14; the nine code points after it are the digits 1 to 9. *)
Definition decimal_zeros : list Z :=
  [ 48; 1632; 1776; 1984; 2406; 2534; 2662; 2790; 2918; 3046; 3174; 3302;
    3430; 3558; 3664; 3792; 3872; 4160; 4240; 6112; 6160; 6470; 6608; 6784;
    6800; 6992; 7088; 7232; 7248; 42528; 43216; 43264; 43472; 43504; 43600;
    44016; 65296; 66720; 68912; 69734; 69872; 69942; 70096; 70384; 70736;
    70864; 71248; 71360; 71472; 71904; 72016; 72784; 73040; 73120; 92768;
    92864; 93008; 120782; 120792; 120802; 120812; 120822; 123200; 123632;
    125264; 130032 ].

(** [unicodedata.decimal(c)], if [c] has one. *)
Definition decimal (c : Z) : option Z :=
  (fun z => c - z) <$> List.find (fun z => between z c (z + 9)) decimal_zeros.

Fixpoint lstrip_by (p : Z -> bool) (l : list Z) : list Z :=
  match l with
  | c :: l' => if p c then lstrip_by p l' else l
  | [] => []
  end.

Definition rstrip_by (p : Z -> bool) (l : list Z) : list Z :=
  reverse (lstrip_by p (reverse l)).

Definition strip_by (p : Z -> bool) (l : list Z) : list Z :=
  rstrip_by p (lstrip_by p l).

(** [l.startswith(p)] *)
Fixpoint startswith (p l : list Z) : bool :=
  match p, l with
  | [], _ => true
  | x :: p', y :: l' => (x =? y) && startswith p' l'
  | _ :: _, [] => false
  end.

(** [l.split()]: the words between runs of white space; [word] is the
    word being read, last character first. *)
Fixpoint split_from (l : list Z) (word : list Z) : list (list Z) :=
  match l with
  | [] => match word with [] => [] | _ => [reverse word] end
  | c :: l' =>
      if isspace c
      then match word with
           | [] => split_from l' []
           | _ => reverse word :: split_from l' []
           end
      else split_from l' (c :: word)
  end.

Definition split (l : list Z) : list (list Z) := split_from l [].

(** [l.split(sep)] and [l.split(sep, 1)] for a one-character [sep]. *)
Fixpoint split_on (sep : Z) (l : list Z) : list (list Z) :=
  match l with
  | [] => [[]]
  | c :: l' =>
      if c =? sep then [] :: split_on sep l'
      else match split_on sep l' with
           | w :: ws => (c :: w) :: ws
           | [] => [[c]]
           end
  end.

Fixpoint split_once (sep : Z) (l : list Z) : list (list Z) :=
  match l with
  | [] => [[]]
  | c :: l' =>
      if c =? sep then [[]; l']
      else match split_once sep l' with
           | w :: ws => (c :: w) :: ws
           | [] => [[c]]
           end
  end.

(** [a <= b] on strings: by code points, the shorter one first. *)
Fixpoint chars_le (a b : list Z) : bool :=
  match a, b with
  | [], _ => true
  | _ :: _, [] => false
  | x :: a', y :: b' => (x <? y) || ((x =? y) && chars_le a' b')
  end.

(** [a >= b] *)
Definition str_ge (a b : string) : bool := chars_le (chars b) (chars a).

(** [(a1, a2) >= (b1, b2)] *)
Definition pair_ge (a b : Z * Z) : bool :=
  (b.1 <? a.1) || ((a.1 =? b.1) && (b.2 <=? a.2)).

(** *** [int(s)] for a [str] argument, base 10

    White space around the literal is skipped, one sign is allowed,
    then decimal digits with single underscores between digits.  The
    digits are those of any script ([int("٨٠٨٠")] is 8080), and the
    white space is that of Unicode above U+007E and the six ASCII blanks
    below (CPython's [_PyUnicode_TransformDecimalAndSpaceToASCII]
    followed by [PyLong_FromString]).  A literal of more than 4300
    digits is refused: the default [sys.int_max_str_digits].  CPython
    words the error for an over-long literal differently; it is a
    [ValueError] all the same. *)

Definition int_space (c : Z) : bool :=
  if c <? 127 then between 9 c 13 || (c =? 32) else isspace c.

Definition is_underscore (c : Z) : bool := c =? 95.

(** The digits after the first one: [acc] is the value so far, [cnt] the
    number of digits read, [after_us] tells that the previous character
    was an underscore (so a digit must follow). *)
Fixpoint digits_from (l : list Z) (acc : Z) (cnt : nat) (after_us : bool)
  : option (Z * nat) :=
  match l with
  | [] => if after_us then None else Some (acc, cnt)
  | c :: l' =>
      match decimal c with
      | Some d => digits_from l' (acc * 10 + d) (S cnt) false
      | None =>
          if is_underscore c && negb after_us
          then digits_from l' acc cnt true
          else None
      end
  end.

Definition unsigned_literal (l : list Z) : option (Z * nat) :=
  match l with
  | [] => None
  | c :: l' =>
      match decimal c with
      | None => None
      | Some d => digits_from l' d 1 false
      end
  end.

(** The value and the number of digits of an integer literal; [None]
    when the characters are not one. *)
Definition literal (l : list Z) : option (Z * nat) :=
  match strip_by int_space l with
  | 43 :: l' => unsigned_literal l'
  | 45 :: l' => prod_map Z.opp id <$> unsigned_literal l'
  | l' => unsigned_literal l'
  end.

Definition int_max_str_digits : nat := 4300.

Definition int_of_chars (l : list Z) : option Z :=
  match literal l with
  | Some (v, cnt) => if (cnt <=? int_max_str_digits)%nat then Some v else None
  | None => None
  end.

(** [repr(s)] for a string without quotes, backslashes or control
    characters; only used inside the text of a message. *)
Definition repr (s : string) : string := "'" +:+ s +:+ "'".

(** [int(s)]: the integer, or [ValueError]. *)
Definition int (s : string) : exn + Z :=
  match int_of_chars (chars s) with
  | Some v => inr v
  | None =>
      inl (ValueError ("invalid literal for int() with base 10: " +:+ repr s))
  end.

End Py.

(** ** The operating system the script runs on *)

Module OS.

(** An absolute path, as the components below the root; [str_path] is
    what [str(p)] prints and [joinpath] is pathlib's [p / name]. *)
Abbreviation path := (list string).

Definition str_path (p : path) : string := "/" +:+ String.concat "/" p.

Definition joinpath (p : path) (name : string) : path := p ++ [name].

(** How [httpd.serve_forever()] ends: Ctrl+C, an exception that escapes
    the loop, or not at all. *)
Inductive serve_end : Type :=
  | Interrupted
  | Failed (e : Py.exn)
  | Never.

(** What the script can observe of its surroundings. *)
Record world : Type := mkWorld {
  environ : gmap string string;          (* os.environ *)
  start_dir : path;                      (* working directory at launch *)
  script_dir : path;                     (* Path(__file__).parent *)
  files : gset path;                     (* paths that exist *)
  bind_refused : string -> Z -> bool;    (* bind((host, port)) raises OSError *)
  listen_error : string -> Z -> option Py.exn;  (* server_bind, server_activate *)
  hostname : string;                     (* socket.gethostname() *)
  host_by_name : string -> option string;       (* socket.gethostbyname *)
  browser_error : option Py.exn;         (* webbrowser.open *)
  serve_forever_end : serve_end;
}.

(** The same surroundings with another environment. *)
Definition with_environ (env : gmap string string) (W : world) : world :=
  mkWorld env (start_dir W) (script_dir W) (files W)
    (bind_refused W) (listen_error W) (hostname W)
    (host_by_name W) (browser_error W) (serve_forever_end W).

(** A port number that [bind] accepts. *)
Definition in_range (p : Z) : Prop := (0 <= p <= 65535)%Z.

(** What the script does to its surroundings, in order. *)
Inductive event : Type :=
  | Print (line : string)
  | Chdir (p : path)
  | Exists (p : path)
  | ProbeBind (host : string) (port : Z)
  | Listen (host : string) (port : Z)
  | OpenBrowser (url : string)
  | ServeForever
  | ServerClose.

#[global] Instance event_eq_dec : EqDecision event.
Proof. solve_decision. Defined.

Record state : Type := mkState { cwd : path; trace : list event }.

(** [st] after the events [evs]. *)
Definition after (st : state) (evs : list event) : state :=
  mkState (cwd st) (trace st ++ evs).

(** A computation returns, raises, or never comes back. *)
Inductive result (A : Type) : Type :=
  | Return (a : A)
  | Raise (e : Py.exn)
  | Diverge.
Arguments Return {A} a.
Arguments Raise {A} e.
Arguments Diverge {A}.

Definition M (A : Type) : Type := state -> result A * state.

Definition ret {A} (a : A) : M A := fun st => (Return a, st).

Definition bind {A B} (m : M A) (k : A -> M B) : M B :=
  fun st =>
    match m st with
    | (Return a, st') => k a st'
    | (Raise e, st') => (Raise e, st')
    | (Diverge, st') => (Diverge, st')
    end.

Definition raise {A} (e : Py.exn) : M A := fun st => (Raise e, st).

Definition diverge {A} : M A := fun st => (Diverge, st).

(** [try: m / except <class> as e: h e / except ...]: the first clause
    whose class matches handles the exception; what a handler raises is
    not offered to the later clauses. *)
Fixpoint handle_exception {A}
    (clauses : list ((Py.exn -> bool) * (Py.exn -> M A))) (e : Py.exn) : M A :=
  match clauses with
  | [] => fun st => (Raise e, st)
  | (class, h) :: rest => if class e then h e else handle_exception rest e
  end.

Definition try_excepts {A} (m : M A)
    (clauses : list ((Py.exn -> bool) * (Py.exn -> M A))) : M A :=
  fun st =>
    match m st with
    | (Raise e, st') => handle_exception clauses e st'
    | r => r
    end.

Definition try_except {A} (m : M A) (class : Py.exn -> bool) (h : Py.exn -> M A)
  : M A := try_excepts m [(class, h)].

(** [try: m / finally: f] *)
Definition try_finally {A} (m : M A) (f : M unit) : M A :=
  fun st =>
    match m st with
    | (Return a, st') => bind f (fun _ => ret a) st'
    | (Raise e, st') => bind f (fun _ => raise e) st'
    | (Diverge, st') => (Diverge, st')
    end.

Definition emit (e : event) : M unit :=
  fun st => (Return tt, mkState (cwd st) (trace st ++ [e])).

Definition print (line : string) : M unit := emit (Print line).

Definition getcwd : M path := fun st => (Return (cwd st), st).

Definition chdir (p : path) : M unit :=
  fun st => (Return tt, mkState p (trace st ++ [Chdir p])).

(** [m] always comes back with a value; [m] always comes back. *)
Definition returns {A} (m : M A) : Prop :=
  forall st, exists a st', m st = (Return a, st').

Definition halts {A} (m : M A) : Prop :=
  forall st, (m st).1 <> Diverge.

(** Run from [st], [m] adds events that satisfy [P] to the trace and
    removes none; [emits]: so it does from every state. *)
Definition emits_at {A} (P : event -> Prop) (m : M A) (st : state) : Prop :=
  exists evs, trace (m st).2 = trace st ++ evs /\ Forall P evs.

Definition emits {A} (P : event -> Prop) (m : M A) : Prop :=
  forall st, emits_at P m st.

(** Run from [st], [m] ends in [r] having added the events [L]. *)
Definition runs {A} (m : M A) (st : state) (r : result A) (L : list event)
  : Prop := m st = (r, after st L).

Definition of_sum {A} (r : Py.exn + A) : M A :=
  match r with inl e => raise e | inr a => ret a end.

Section Calls.
Variable W : world.

(** [p.exists()] *)
Definition path_exists (p : path) : M bool :=
  bind (emit (Exists p)) (fun _ => ret (bool_decide (p ∈ files W))).

(** [with socket.socket(AF_INET, SOCK_STREAM) as s: s.bind((host, port))]:
    a port outside 0..65535 is an [OverflowError]; a refusal by the
    system (address in use, no permission, no socket to be had) is an
    [OSError]; the socket is closed again either way. *)
Definition probe_bind (host : string) (port : Z) : M unit :=
  bind (emit (ProbeBind host port)) (fun _ =>
    if negb ((0 <=? port)%Z && (port <=? 65535)%Z)
    then raise (Py.OverflowError "bind(): port must be 0-65535.")
    else if bind_refused W host port
    then raise (Py.OSError "[Errno 98] Address already in use")
    else ret tt).

(** [socketserver.TCPServer((host, port), handler)]: the constructor
    binds and listens; when either step raises, it calls
    [self.server_close()] and raises the exception again
    ([try: self.server_bind(); self.server_activate() / except:
    self.server_close(); raise]). *)
Definition tcp_server (host : string) (port : Z) : M unit :=
  bind (emit (Listen host port)) (fun _ =>
    match listen_error W host port with
    | Some e => bind (emit ServerClose) (fun _ => raise e)
    | None => ret tt
    end).

Definition serve_forever : M unit :=
  bind (emit ServeForever) (fun _ =>
    match serve_forever_end W with
    | Interrupted => raise Py.KeyboardInterrupt
    | Failed e => raise e
    | Never => diverge
    end).

Definition webbrowser_open (url : string) : M unit :=
  bind (emit (OpenBrowser url)) (fun _ =>
    match browser_error W with
    | Some e => raise e
    | None => ret tt
    end).

Definition gethostname : M string := ret (hostname W).

Definition gethostbyname (h : string) : M string :=
  match host_by_name W h with
  | Some ip => ret ip
  | None => raise (Py.OSError "[Errno -2] Name or service not known")
  end.
End Calls.

End OS.

Declare Scope py_scope.
Delimit Scope py_scope with py.
Notation "x <~ c ; k" := (OS.bind c (fun x => k))
(at level 20, c at level 100, k at level 200, only parsing) : py_scope.
Notation "c ;; k" := (OS.bind c (fun _ => k))
(at level 100, k at level 200, only parsing, right associativity) : py_scope.

(** ** The script: configuration, port selection, file check, start-up *)

Module Main.
Import OS.
Local Open Scope py_scope.
Local Open Scope Z_scope.

Section Script.
Variable W : world.

(** [PORT = int(os.environ.get('PORT', 8000))], run at import. *)
Definition module_PORT : M Z :=
  match environ W !! "PORT" with
  | Some s => of_sum (Py.int s)
  | None => ret 8000
  end.

(** [HOST = os.environ.get('HOST', '0.0.0.0')] *)
Definition module_HOST : M string :=
  ret (default "0.0.0.0" (environ W !! "HOST")).

(** The [for port in range(...)] loop of [find_free_port]: the first
    port whose throwaway bind does not raise [OSError]; any other
    exception leaves the loop. *)
Fixpoint scan_ports (ports : list Z) : M (option Z) :=
  match ports with
  | [] => ret None
  | port :: rest =>
      try_except (probe_bind W "0.0.0.0" port ;; ret (Some port))
                 Py.is_OSError
                 (fun _ => scan_ports rest)
  end.

Definition find_free_port (start_port max_attempts : Z) : M Z :=
  match environ W !! "PORT" with
  | Some s => of_sum (Py.int s)
  | None =>
      found <~ scan_ports (seqZ start_port max_attempts);
      match found with
      | Some port => ret port
      | None =>
          raise (Py.OSError ("Could not find a free port in range "
                             +:+ Py.str start_port +:+ "-"
                             +:+ Py.str (start_port + max_attempts)))
      end
  end.

Definition logo_files : list string :=
  ["logo.png"; "logo.svg"; "logo.jpg"; "logo.jpeg"].

(** [any(p.exists() for p in ps)], stopping at the first hit. *)
Fixpoint any_exists (ps : list path) : M bool :=
  match ps with
  | [] => ret false
  | p :: rest =>
      b <~ path_exists W p;
      if b then ret true else any_exists rest
  end.

Definition check_files : M bool :=
  current_dir <~ getcwd;
  let index_file := joinpath current_dir "index.html" in
  found <~ path_exists W index_file;
  if negb found then
    print ("❌ Error: index.html not found in " +:+ str_path current_dir) ;;
    print "   Make sure you're running this script from the same directory as index.html" ;;
    ret false
  else
    logo_found <~ any_exists (joinpath current_dir <$> logo_files);
    (if negb logo_found then
       print "⚠️  Warning: Logo file not found. The website may not display logos correctly." ;;
       print "   Expected files: logo.png, logo.svg, logo.jpg, or logo.jpeg"
     else ret tt) ;;
    ret true.

Section Globals.
Variable PORT : Z.
Variable HOST : string.

Definition rule : string := Py.repeat_char "=" 60.

Definition when (b : bool) (m : M unit) : M unit := if b then m else ret tt.

(** The body of [with socketserver.TCPServer(...) as httpd:].  Setting
    [httpd.allow_reuse_address] after the constructor has bound the
    socket changes nothing that is observed here. *)
Definition serve_body (port : Z) : M unit :=
  let server_url := "http://" +:+ HOST +:+ ":" +:+ Py.str port in
  let local_url := "http://localhost:" +:+ Py.str port in
  let wildcard := bool_decide (HOST = "0.0.0.0") in
  print rule ;;
  print "🚀 Your-Work Innovations Website Server" ;;
  print rule ;;
  print ("📍 Server running at: " +:+ server_url) ;;
  when wildcard (print ("� Local access: " +:+ local_url)) ;;
  (here <~ getcwd; print ("�📁 Serving files from: " +:+ str_path here)) ;;
  print rule ;;
  print "📱 Test your responsive website on different devices:" ;;
  (if wildcard then
     print ("   • Desktop: " +:+ local_url) ;;
     print ("   • Mobile: Use your computer's IP address with port " +:+ Py.str port) ;;
     print "   • Deployment: Server accessible on all interfaces"
   else
     print ("   • Desktop: " +:+ server_url) ;;
     print "   • Mobile: Use your computer's IP address instead of 'localhost'") ;;
  print rule ;;
  print "💡 Tips:" ;;
  print "   • Press Ctrl+C to stop the server" ;;
  print "   • Refresh the page after making changes to HTML/CSS" ;;
  print "   • Use browser dev tools to test different screen sizes" ;;
  when wildcard (print "   • This server is configured for deployment compatibility") ;;
  print rule ;;
  try_except
    (webbrowser_open W server_url ;;
     print "🌐 Opening website in your default browser...")
    Py.is_Exception
    (fun e =>
       print ("Could not open browser automatically: " +:+ Py.str_exn e) ;;
       print ("Please manually open: " +:+ server_url)) ;;
  print (Py.nl +:+ "✅ Server started successfully! Waiting for requests...") ;;
  print "   (Press Ctrl+C to stop)" ;;
  serve_forever W.

(** The [try] block of [start_server].  [script_dir] is the directory of
    the script, which exists; leaving the [with] block closes the
    server. *)
Definition start_server_body : M unit :=
  chdir (script_dir W) ;;
  ok <~ check_files;
  if negb ok then ret tt else
  r <~ try_except (port <~ find_free_port PORT 10; ret (inr port))
                  Py.is_OSError (fun e => ret (inl e));
  match r with
  | inl e => print ("❌ Error: " +:+ Py.str_exn e)
  | inr port =>
      tcp_server W HOST port ;;
      try_finally (serve_body port) (emit ServerClose)
  end.

Definition start_server : M unit :=
  try_excepts start_server_body
    [ (Py.is_KeyboardInterrupt,
       fun _ => print (Py.nl +:+ Py.nl +:+ "🛑 Server stopped by user"));
      (Py.is_Exception,
       fun e =>
         print (Py.nl +:+ "❌ Error starting server: " +:+ Py.str_exn e) ;;
         print "   Make sure the port is not already in use") ].

Definition show_network_info : M unit :=
  try_except
    (hostname <~ gethostname W;
     local_ip <~ gethostbyname W hostname;
     print (Py.nl +:+ "🌐 Network Information:") ;;
     print ("   • Computer Name: " +:+ hostname) ;;
     print ("   • Local IP Address: " +:+ local_ip) ;;
     print ("   • For mobile testing, use: http://" +:+ local_ip +:+ ":" +:+ Py.str PORT) ;;
     print "   • Make sure your mobile device is on the same WiFi network")
    Py.is_Exception
    (fun e => print ("Could not determine network info: " +:+ Py.str_exn e)).

Definition main : M unit :=
  print "🎯 Your-Work Innovations Website Server" ;;
  print ("   A simple HTTP server for testing your responsive website" +:+ Py.nl) ;;
  show_network_info ;;
  start_server.

End Globals.

(** The whole module, run as a script: the top-level assignments, then
    [main()]. *)
Definition script : M unit :=
  PORT <~ module_PORT;
  HOST <~ module_HOST;
  main PORT HOST.

Definition initial : state := mkState (start_dir W) [].

Definition run : result unit * state := script initial.

(** How the process ends.  Falling off the end of the script is exit
    code 0; an uncaught exception is a traceback and exit code 1; an
    uncaught [KeyboardInterrupt] ends the process by SIGINT. *)
Inductive status : Type :=
  | Exit (code : Z)
  | Killed_by_SIGINT
  | Running_forever.

Definition exit_status : status :=
  match run.1 with
  | Return _ => Exit 0
  | Raise Py.KeyboardInterrupt => Killed_by_SIGINT
  | Raise _ => Exit 1
  | Diverge => Running_forever
  end.

Definition events : list event := trace run.2.

(** The top-level [int(...)] goes through: [PORT] is unset or reads as
    an integer. *)
Definition PORT_is_usable : Prop :=
  match environ W !! "PORT" with
  | Some s => exists P, Py.int s = inr P
  | None => True
  end.

End Script.

(** The listener exists once [TCPServer(...)] has been called. *)
Definition is_Listen (e : event) : bool :=
  match e with Listen _ _ => true | _ => false end.

Definition is_ProbeBind (e : event) : bool :=
  match e with ProbeBind _ _ => true | _ => false end.

(** A throwaway bind on the wildcard address. *)
Definition is_wildcard_probe (e : event) : Prop :=
  exists p, e = ProbeBind "0.0.0.0" p.

Definition is_Print (e : event) : Prop :=
  match e with Print _ => True | _ => False end.

(** An event of [check_files] run in directory [d]: a printed line, or a
    look for one of the five file names in [d]. *)
Definition looks_in (d : path) (e : event) : Prop :=
  is_Print e \/
  exists name, name ∈ "index.html" :: logo_files /\ e = Exists (joinpath d name).

(** The two lines of the logo warning. *)
Definition logo_warning : list event :=
  [ Print "⚠️  Warning: Logo file not found. The website may not display logos correctly.";
    Print "   Expected files: logo.png, logo.svg, logo.jpg, or logo.jpeg" ].

(** What comes before the server is built: printing, the change of
    directory, the looks for files, the probes. *)
Definition preparation (e : event) : Prop :=
  match e with
  | Print _ | Chdir _ | Exists _ | ProbeBind _ _ => True
  | _ => False
  end.

(** What the handlers of [start_server] print for the exception [e]. *)
Definition farewell (e : Py.exn) : list event :=
  if Py.is_KeyboardInterrupt e
  then [Print (Py.nl +:+ Py.nl +:+ "🛑 Server stopped by user")]
  else [Print (Py.nl +:+ "❌ Error starting server: " +:+ Py.str_exn e);
        Print "   Make sure the port is not already in use"].

(** How [serve_forever] comes back, if it does. *)
Definition serve_outcome (W : world) : result unit :=
  match serve_forever_end W with
  | Interrupted => Raise Py.KeyboardInterrupt
  | Failed e => Raise e
  | Never => Diverge
  end.

(** [webbrowser.open] returns or raises an [Exception]. *)
Definition browser_is_harmless (W : world) : Prop :=
  forall e, browser_error W = Some e -> Py.is_Exception e = true.

(** [f"http://{HOST}:{port}"] *)
Definition server_url (HOST : string) (port : Z) : string :=
  "http://" +:+ HOST +:+ ":" +:+ Py.str port.

(** What [start_server] may do: print; change to the script's directory;
    look for the five file names there; probe a port of its range on the
    wildcard address; build the server on [HOST]; open the browser at the
    server's URL; serve; close the server. *)
Definition allowed (W : world) (PORT : Z) (HOST : string) (e : event) : Prop :=
  match e with
  | Print _ => True
  | Chdir p => p = script_dir W
  | Exists _ => looks_in (script_dir W) e
  | ProbeBind h q => h = "0.0.0.0" /\ (PORT <= q < PORT + 10)%Z
  | Listen h _ => h = HOST
  | OpenBrowser url => exists port, url = server_url HOST port
  | ServeForever => True
  | ServerClose => True
  end.

(** The text of the [OSError] of [find_free_port]. *)
Definition exhausted_message (start_port max_attempts : Z) : string :=
  "Could not find a free port in range "
  +:+ Py.str start_port +:+ "-" +:+ Py.str (start_port + max_attempts).

(** A candidate port on which the throwaway bind raises [OSError]. *)
Definition taken (W : world) (q : Z) : Prop :=
  in_range q /\ bind_refused W "0.0.0.0" q = true.

(** The probes of the candidates [l], in order. *)
Definition probes (l : list Z) : list event := ProbeBind "0.0.0.0" <$> l.

(** The three ways the loop of [find_free_port] can end. *)
Inductive scan_end (W : world) (l : list Z) (st : state) : result (option Z) * state -> Prop :=
  | scan_found l1 p l2 :
      l = l1 ++ p :: l2 -> Forall (taken W) l1 ->
      in_range p -> bind_refused W "0.0.0.0" p = false ->
      scan_end W l st (Return (Some p), after st (probes (l1 ++ [p])))
  | scan_exhausted :
      Forall (taken W) l ->
      scan_end W l st (Return None, after st (probes l))
  | scan_overflow l1 p l2 :
      l = l1 ++ p :: l2 -> Forall (taken W) l1 -> ~ in_range p ->
      scan_end W l st
        (Raise (Py.OverflowError "bind(): port must be 0-65535."),
         after st (probes (l1 ++ [p]))).

(** What [start_server] prints when [find_free_port(8000)] gives up. *)
Definition exhausted : string :=
  "Could not find a free port in range 8000-8010".

End Main.

(** ** The request handler *)

Module Http.
Local Open Scope Z_scope.

(** One line of a header block, before it is encoded and joined. *)
Inductive line : Type :=
  | StatusLine (version : string) (code : Z) (message : string)
  | Header (keyword value : string)
  | Blank.

(** One [wfile.write]: a flushed header block, or body bytes. *)
Inductive chunk : Type :=
  | Head (lines : list line)
  | Body (data : string).

(** The handler object: the request attributes that [parse_request]
    sets, the header buffer, what was written to the connection and what
    was printed.  An attribute that is [None] or not set yet is the empty
    string here. *)
Record handler : Type := mkHandler {
  requestline : string;
  command : string;
  path : string;
  request_version : string;
  headers : list (string * string);
  headers_buffer : list line;
  wfile : list chunk;
  close_connection : bool;
  stdout : list string;
}.

Definition set_requestline (l : string) (h : handler) : handler :=
  mkHandler l (command h) (path h) (request_version h) (headers h)
            (headers_buffer h) (wfile h) (close_connection h) (stdout h).

Definition set_command (c : string) (h : handler) : handler :=
  mkHandler (requestline h) c (path h) (request_version h) (headers h)
            (headers_buffer h) (wfile h) (close_connection h) (stdout h).

Definition set_request_version (v : string) (h : handler) : handler :=
  mkHandler (requestline h) (command h) (path h) v (headers h)
            (headers_buffer h) (wfile h) (close_connection h) (stdout h).

Definition set_headers (hdrs : list (string * string)) (h : handler) : handler :=
  mkHandler (requestline h) (command h) (path h) (request_version h) hdrs
            (headers_buffer h) (wfile h) (close_connection h) (stdout h).

Definition set_path (p : string) (h : handler) : handler :=
  mkHandler (requestline h) (command h) p (request_version h) (headers h)
            (headers_buffer h) (wfile h) (close_connection h) (stdout h).

Definition set_headers_buffer (b : list line) (h : handler) : handler :=
  mkHandler (requestline h) (command h) (path h) (request_version h) (headers h)
            b (wfile h) (close_connection h) (stdout h).

Definition write (c : chunk) (h : handler) : handler :=
  mkHandler (requestline h) (command h) (path h) (request_version h) (headers h)
            (headers_buffer h) (wfile h ++ [c]) (close_connection h) (stdout h).

Definition set_close_connection (b : bool) (h : handler) : handler :=
  mkHandler (requestline h) (command h) (path h) (request_version h) (headers h)
            (headers_buffer h) (wfile h) b (stdout h).

Definition print (s : string) (h : handler) : handler :=
  mkHandler (requestline h) (command h) (path h) (request_version h) (headers h)
            (headers_buffer h) (wfile h) (close_connection h) (stdout h ++ [s]).

(** [s.lower()] on the letters A to Z.  It is only compared with
    [connection], [expect], [close], [keep-alive] and [100-continue]. *)
Definition lower_char (c : ascii) : ascii :=
  let n := Ascii.nat_of_ascii c in
  if ((65 <=? n)%nat && (n <=? 90)%nat)%bool
  then Ascii.ascii_of_nat (n + 32) else c.

Definition lower (s : string) : string :=
  string_of_list_ascii (lower_char <$> list_ascii_of_string s).

Definition dquote : string := String (Ascii.ascii_of_nat 34) EmptyString.

(** What static-file resolution finds for a request path: the part of
    [SimpleHTTPRequestHandler.send_head] that touches the file system.
    [Redirect]: a directory asked for without the trailing slash;
    [Listing]: a directory without index file (the page, or no
    permission); [NotFound]: [open] failed; [NotModified]: the
    If-Modified-Since check; [File]: the file was opened. *)
Inductive resolution : Type :=
  | Redirect (new_url : string)
  | Listing (page : option (string * string))
  | NotFound
  | NotModified
  | File (ctype : string) (size : Z) (last_modified : string) (content : string).

(** The library and the serving root, as far as the handler sees them. *)
Record site : Type := mkSite {
  resolve : string -> list (string * string) -> resolution;
  responses : Z -> option (string * string);
  error_page : Z -> string -> string -> string;
  version_string : string;
  date_time_string : string;
  log_date_time_string : string;
}.

Definition protocol_version : string := "HTTP/1.0".

Definition default_request_version : string := "HTTP/0.9".

(** What [http.client.parse_headers] raises on a header block it
    refuses; the string is [str(err)]. *)
Inductive header_error : Type :=
  | LineTooLong (err : string)
  | HTTPException (err : string).

(** What arrives for one request: the bytes that
    [self.rfile.readline(65537)] returns, and what [parse_headers] makes
    of the lines after them.  The handler class sets no [timeout], so no
    read times out. *)
Record inbound : Type := mkInbound {
  raw_requestline : string;
  header_lines : header_error + list (string * string);
}.

(** [headers.get(name, failobj)]: the first header of that name, whatever
    the case of its letters. *)
Definition get_header (name failobj : string) (hdrs : list (string * string))
  : string :=
  match List.find (fun kv => bool_decide (lower kv.1 = lower name)) hdrs with
  | Some (_, v) => v
  | None => failobj
  end.

(** The [try] block of [parse_request] that reads the version word:
    [None] where it raises [ValueError]; else what follows [HTTP/] and
    the pair of numbers. *)
Definition version_number (version : list Z) : option (list Z * (Z * Z)) :=
  if negb (Py.startswith (Py.chars "HTTP/") version) then None
  else
    match Py.split_once 47 version with
    | _ :: base_version_number :: _ =>
        match Py.split_on 46 base_version_number with
        | [major; minor] =>
            match Py.int_of_chars major with
            | Some a =>
                match Py.int_of_chars minor with
                | Some b => Some (base_version_number, (a, b))
                | None => None
                end
            | None => None
            end
        | _ => None
        end
    | _ => None
    end.

Definition error_content_type : string := "text/html;charset=utf-8".

(** The methods that main.py overrides and that the library calls
    through [self]. *)
Class methods : Type := {
  end_headers : handler -> handler;
  log_message : string -> handler -> handler;
}.

Section Library.
Variable S : site.

(** *** [BaseHTTPRequestHandler] (http/server.py) *)

Definition send_response_only (code : Z) (message : option string)
    (h : handler) : handler :=
  if decide (request_version h = "HTTP/0.9") then h else
    let message :=
      match message with
      | Some m => m
      | None => match responses S code with Some (m, _) => m | None => "" end
      end in
    set_headers_buffer
      (headers_buffer h ++ [StatusLine protocol_version code message]) h.

(** [if self.request_version != 'HTTP/0.9': self._headers_buffer.append(...)],
    then the bookkeeping of a [Connection] header. *)
Definition send_header (keyword value : string) (h : handler) : handler :=
  let h :=
    if decide (request_version h = "HTTP/0.9") then h
    else set_headers_buffer (headers_buffer h ++ [Header keyword value]) h in
  if decide (lower keyword = "connection") then
    if decide (lower value = "close") then set_close_connection true h
    else if decide (lower value = "keep-alive") then set_close_connection false h
    else h
  else h.

Definition flush_headers (h : handler) : handler :=
  set_headers_buffer [] (write (Head (headers_buffer h)) h).

(** [BaseHTTPRequestHandler.end_headers] *)
Definition base_end_headers (h : handler) : handler :=
  if decide (request_version h = "HTTP/0.9") then h
  else flush_headers (set_headers_buffer (headers_buffer h ++ [Blank]) h).

Section Self.
Context {self : methods}.

Definition log_request (code : Z) (h : handler) : handler :=
  log_message
    (dquote +:+ requestline h +:+ dquote +:+ " " +:+ Py.str code +:+ " -") h.

Definition log_error (msg : string) (h : handler) : handler :=
  log_message msg h.

Definition send_response (code : Z) (message : option string)
    (h : handler) : handler :=
  let h := log_request code h in
  let h := send_response_only code message h in
  let h := send_header "Server" (version_string S) h in
  send_header "Date" (date_time_string S) h.

Definition send_error (code : Z) (message explain : option string)
    (h : handler) : handler :=
  let '(shortmsg, longmsg) := default ("???", "???") (responses S code) in
  let message := default shortmsg message in
  let explain := default longmsg explain in
  let h := log_error ("code " +:+ Py.str code +:+ ", message " +:+ message) h in
  let h := send_response code (Some message) h in
  let h := send_header "Connection" "close" h in
  if ((200 <=? code) && negb (bool_decide (code ∈ [204; 205; 304])))%bool
  then
    let body := error_page S code message explain in
    let h := send_header "Content-Type" error_content_type h in
    let h := send_header "Content-Length"
               (Py.str (Z.of_nat (String.length body))) h in
    let h := end_headers h in
    if (negb (bool_decide (command h = "HEAD"))
        && negb (bool_decide (body = "")))%bool
    then write (Body body) h else h
  else end_headers h.

(** [handle_expect_100] *)
Definition handle_expect_100 (h : handler) : bool * handler :=
  (true, end_headers (send_response_only 100 None h)).

(** [parse_request], from [if len(words) >= 3] to
    [self.request_version = version]: on the left the handler after the
    error reply, for [return False]. *)
Definition read_version (words : list (list Z)) (h : handler)
  : handler + handler :=
  if (3 <=? length words)%nat then
    let version := List.last words [] in
    match version_number version with
    | None =>
        inl (send_error 400
               (Some ("Bad request version ("
                      +:+ Py.repr (Py.text version) +:+ ")")) None h)
    | Some (base_version_number, number) =>
        let h :=
          if Py.pair_ge number (1, 1) && Py.str_ge protocol_version "HTTP/1.1"
          then set_close_connection false h else h in
        if Py.pair_ge number (2, 0)
        then inl (send_error 505
                    (Some ("Invalid HTTP version ("
                           +:+ Py.text base_version_number +:+ ")")) None h)
        else inr (set_request_version (Py.text version) h)
    end
  else inr h.

(** [parse_request], from [self.headers = http.client.parse_headers(...)]
    to the end. *)
Definition read_headers (r : inbound) (h : handler) : bool * handler :=
  match header_lines r with
  | inl (LineTooLong err) =>
      (false, send_error 431 (Some "Line too long") (Some err) h)
  | inl (HTTPException err) =>
      (false, send_error 431 (Some "Too many headers") (Some err) h)
  | inr hdrs =>
      let h := set_headers hdrs h in
      let conntype := get_header "Connection" "" hdrs in
      let h :=
        if bool_decide (lower conntype = "close")
        then set_close_connection true h
        else if bool_decide (lower conntype = "keep-alive")
                && Py.str_ge protocol_version "HTTP/1.1"
        then set_close_connection false h
        else h in
      let expect := get_header "Expect" "" hdrs in
      if bool_decide (lower expect = "100-continue")
         && Py.str_ge protocol_version "HTTP/1.1"
         && Py.str_ge (request_version h) "HTTP/1.1"
      then handle_expect_100 h
      else (true, h)
  end.

(** [parse_request], from [command, path = words[:2]] on. *)
Definition read_command (r : inbound) (words : list (list Z)) (h : handler)
  : bool * handler :=
  match words with
  | command :: path :: _ =>
      let h :=
        if (length words =? 2)%nat then set_close_connection true h else h in
      if (length words =? 2)%nat && negb (bool_decide (Py.text command = "GET"))
      then (false,
            send_error 400
              (Some ("Bad HTTP/0.9 request type ("
                     +:+ Py.repr (Py.text command) +:+ ")")) None h)
      else
        let h := set_path (Py.text path) (set_command (Py.text command) h) in
        let h :=
          if Py.startswith [47; 47] path
          then set_path (Py.text (47 :: Py.lstrip_by (fun c => c =? 47) path)) h
          else h in
        read_headers r h
  | _ => (false, h)
  end.

(** [parse_request]: [False] once an error reply has been sent, or for
    a line without a word. *)
Definition parse_request (r : inbound) (h : handler) : bool * handler :=
  let h := set_command "" h in
  let h := set_request_version default_request_version h in
  let h := set_close_connection true h in
  let requestline :=
    Py.rstrip_by (fun c => (c =? 13) || (c =? 10))
                 (Py.latin1 (raw_requestline r)) in
  let h := set_requestline (Py.text requestline) h in
  let words := Py.split requestline in
  if (length words =? 0)%nat then (false, h)
  else
    match read_version words h with
    | inl h => (false, h)
    | inr h =>
        if negb ((2 <=? length words)%nat && (length words <=? 3)%nat)
        then (false,
              send_error 400
                (Some ("Bad request syntax ("
                       +:+ Py.repr (Py.text requestline) +:+ ")")) None h)
        else read_command r words h
    end.

(** *** [SimpleHTTPRequestHandler] *)

(** [send_head]: the headers are sent; the result is the open file (its
    content) when a body has to follow. *)
Definition send_head (h : handler) : handler * option string :=
  match resolve S (path h) (headers h) with
  | Redirect new_url =>
      let h := send_response 301 None h in
      let h := send_header "Location" new_url h in
      let h := send_header "Content-Length" "0" h in
      (end_headers h, None)
  | Listing None =>
      (send_error 404 (Some "No permission to list directory") None h, None)
  | Listing (Some (enc, page)) =>
      let h := send_response 200 None h in
      let h := send_header "Content-type" ("text/html; charset=" +:+ enc) h in
      let h := send_header "Content-Length"
                 (Py.str (Z.of_nat (String.length page))) h in
      (end_headers h, Some page)
  | NotFound => (send_error 404 (Some "File not found") None h, None)
  | NotModified => (end_headers (send_response 304 None h), None)
  | File ctype size last_modified content =>
      let h := send_response 200 None h in
      let h := send_header "Content-type" ctype h in
      let h := send_header "Content-Length" (Py.str size) h in
      let h := send_header "Last-Modified" last_modified h in
      (end_headers h, Some content)
  end.

(** [SimpleHTTPRequestHandler.do_GET]: [send_head], then [copyfile]. *)
Definition base_do_GET (h : handler) : handler :=
  match send_head h with
  | (h, Some f) => if bool_decide (f = "") then h else write (Body f) h
  | (h, None) => h
  end.

Definition do_HEAD (h : handler) : handler := (send_head h).1.

End Self.

(** *** [CustomHTTPRequestHandler] (main.py) *)

Definition custom_end_headers (h : handler) : handler :=
  let h := send_header "Access-Control-Allow-Origin" "*" h in
  let h := send_header "Access-Control-Allow-Methods" "GET, POST, OPTIONS" h in
  let h := send_header "Access-Control-Allow-Headers" "Content-Type" h in
  let h := send_header "X-Content-Type-Options" "nosniff" h in
  let h := send_header "X-Frame-Options" "DENY" h in
  let h := send_header "X-XSS-Protection" "1; mode=block" h in
  base_end_headers h.

(** [print(f"[{self.log_date_time_string()}] {format % args}")]; the
    argument is [format % args]. *)
Definition custom_log_message (formatted : string) (h : handler) : handler :=
  print ("[" +:+ log_date_time_string S +:+ "] " +:+ formatted) h.

#[local] Instance CustomHTTPRequestHandler : methods :=
  {| end_headers := custom_end_headers; log_message := custom_log_message |}.

Definition do_GET (h : handler) : handler :=
  let h := if decide (path h = "/") then set_path "/index.html" h else h in
  base_do_GET h.

(** The end of [handle_one_request], once [parse_request] has returned
    [True]: [mname = 'do_' + self.command]; the class has [do_GET] and
    [do_HEAD]; without the method the reply is 501. *)
Definition dispatch (h : handler) : handler :=
  if decide (command h = "GET") then do_GET h
  else if decide (command h = "HEAD") then do_HEAD h
  else send_error 501
         (Some ("Unsupported method (" +:+ Py.repr (command h) +:+ ")")) None h.

(** [handle_one_request]: a request line of more than 65536 bytes is
    answered with 414; no line at all closes the connection; else the
    request is parsed and the method called. *)
Definition handle_one_request (r : inbound) (h : handler) : handler :=
  if 65536 <? Z.of_nat (String.length (raw_requestline r)) then
    let h := set_requestline "" h in
    let h := set_request_version "" h in
    let h := set_command "" h in
    send_error 414 None None h
  else if bool_decide (raw_requestline r = "") then set_close_connection true h
  else
    match parse_request r h with
    | (true, h) => dispatch h
    | (false, h) => h
    end.

(** What the handler reads when the client has sent nothing more:
    [readline] returns [b''] and there is no header. *)
Definition end_of_stream : inbound := mkInbound "" (inr []).

(** [handle]: [self.close_connection = True], one request, and then
    [while not self.close_connection: self.handle_one_request()].  [rs]
    are the requests that arrive on the connection, in order. *)
Fixpoint handle_more (rs : list inbound) (h : handler) : handler :=
  if close_connection h then h
  else
    match rs with
    | [] => handle_one_request end_of_stream h
    | r :: rs' => handle_more rs' (handle_one_request r h)
    end.

Definition handle (rs : list inbound) (h : handler) : handler :=
  let h := set_close_connection true h in
  match rs with
  | [] => handle_one_request end_of_stream h
  | r :: rs' => handle_more rs' (handle_one_request r h)
  end.

End Library.

(** The handler object of a new connection, before the first request is
    read. *)
Definition connected : handler := mkHandler "" "" "" "" [] [] [] true [].

(** [parse_request] and the handler it leaves, for the first request of
    a connection to this handler class. *)
Definition parsed (S : site) (r : inbound) : bool * handler :=
  parse_request S (self := CustomHTTPRequestHandler S) r connected.

(** The version that [parse_request] leaves in [request_version]: the
    last word of a request line of three or more words when it reads as
    a version below 2.0, and the default [HTTP/0.9] for every other
    line. *)
Definition parsed_version (r : inbound) : string :=
  let words :=
    Py.split (Py.rstrip_by (fun c => (c =? 13) || (c =? 10))
                           (Py.latin1 (raw_requestline r))) in
  if (3 <=? length words)%nat then
    match version_number (List.last words []) with
    | Some (_, number) =>
        if Py.pair_ge number (2, 0) then default_request_version
        else Py.text (List.last words [])
    | None => default_request_version
    end
  else default_request_version.


(** The handler as [parse_request] leaves it for an accepted request. *)
Definition accepted (requestline command path version : string)
    (headers : list (string * string)) : handler :=
  mkHandler requestline command path version headers [] [] true [].

(** The six headers of [end_headers], as header lines. *)
Definition injected : list line :=
  [ Header "Access-Control-Allow-Origin" "*";
    Header "Access-Control-Allow-Methods" "GET, POST, OPTIONS";
    Header "Access-Control-Allow-Headers" "Content-Type";
    Header "X-Content-Type-Options" "nosniff";
    Header "X-Frame-Options" "DENY";
    Header "X-XSS-Protection" "1; mode=block" ].

Definition is_body (c : chunk) : Prop :=
  match c with Body _ => True | Head _ => False end.


(** [h'] is [h] with [ls] added to the header buffer; the request and
    the connection are as they were. *)
Definition buffered (h h' : handler) (ls : list line) : Prop :=
  request_version h' = request_version h /\
  command h' = command h /\
  wfile h' = wfile h /\
  headers_buffer h' = headers_buffer h ++ ls.

(** A reply: one header block that starts with the status line and ends
    with the six injected headers and the blank line, then body bytes. *)
Definition replied (h0 h : handler) : Prop :=
  exists code msg pre rest,
    wfile h = wfile h0 ++
      Head (headers_buffer h0 ++
            StatusLine protocol_version code msg :: pre ++ injected ++ [Blank])
      :: rest /\
    Forall is_body rest.

(** What [h] has written after [w]: a reply when its version is not
    HTTP/0.9, and body bytes at most when it is. *)
Definition served (w : list chunk) (h : handler) : Prop :=
  (request_version h <> "HTTP/0.9" ->
   exists code msg pre rest,
     wfile h = w ++
       Head (StatusLine protocol_version code msg :: pre ++ injected ++ [Blank])
       :: rest /\
     Forall is_body rest) /\
  (request_version h = "HTTP/0.9" ->
   exists bodies, wfile h = w ++ bodies /\ Forall is_body bodies).

(** What [parse_request] and its parts leave: for [True] nothing is
    written; for [False] the error reply is. *)
Definition parse_outcome (w : list chunk) (v : string) (res : bool * handler)
  : Prop :=
  match res with
  | (true, h) =>
      wfile h = w /\ headers_buffer h = [] /\
      close_connection h = true /\ request_version h = v
  | (false, h) => served w h /\ request_version h = v
  end.

(** The status code of the first header block written. *)
Definition status_code (w : list chunk) : option Z :=
  match w with
  | Head (StatusLine _ code _ :: _) :: _ => Some code
  | _ => None
  end.

(** The 200 reply for a file: the status line, the headers of
    [send_head], the six injected headers and the blank line in one
    block, then the content if there is any. *)
Definition file_reply (S : site) (msg ctype : string) (size : Z)
    (last_modified content : string) : list chunk :=
  Head ([ StatusLine protocol_version 200 msg;
          Header "Server" (version_string S);
          Header "Date" (date_time_string S);
          Header "Content-type" ctype;
          Header "Content-Length" (Py.str size);
          Header "Last-Modified" last_modified ] ++ injected ++ [Blank])
  :: (if bool_decide (content = "") then [] else [Body content]).

(** Two handler objects that differ at most in the request line they
    log and in what they have printed. *)
Definition same_reply (h1 h2 : handler) : Prop :=
  command h1 = command h2 /\
  path h1 = path h2 /\
  request_version h1 = request_version h2 /\
  headers h1 = headers h2 /\
  headers_buffer h1 = headers_buffer h2 /\
  wfile h1 = wfile h2 /\
  close_connection h1 = close_connection h2.

(** One change of the handler object while a request is handled: a
    write to the header buffer or a header block on the connection, both
    only when the request is not HTTP/0.9; body bytes on the connection;
    the [close_connection] flag; a printed line that starts with the
    timestamp in brackets. *)
Inductive update (S : site) : handler -> handler -> Prop :=
  | update_buffer h b :
      request_version h <> "HTTP/0.9" -> update S h (set_headers_buffer b h)
  | update_head h ls :
      request_version h <> "HTTP/0.9" -> update S h (write (Head ls) h)
  | update_body h d : update S h (write (Body d) h)
  | update_close h b : update S h (set_close_connection b h)
  | update_print h m :
      update S h (print ("[" +:+ log_date_time_string S +:+ "] " +:+ m) h).




End Http.

(** ** Sample surroundings *)

Module Examples.
Local Open Scope Z_scope.

(** A serving root with [index.html] and a logo; nothing else. *)
Definition root_files : gset (list string) :=
  {[ ["srv"; "site"; "index.html"]; ["srv"; "site"; "logo.png"] ]}.

(** No environment variables; ports 8000 to 8002 are taken; the operator
    stops the server with Ctrl+C. *)
Definition dev_box : OS.world :=
  OS.mkWorld ∅ ["home"; "dev"] ["srv"; "site"] root_files
    (fun _ p => (8000 <=? p) && (p <? 8003))
    (fun _ _ => None) "box" (fun _ => Some "10.0.0.2") None OS.Interrupted.

(** Deployment: the platform sets [PORT]. *)
Definition deployed : OS.world := OS.with_environ {[ "PORT" := "8080" ]} dev_box.

(** [PORT] outside the TCP range; the later [TCPServer] bind fails. *)
Definition port_too_big : OS.world :=
  OS.mkWorld {[ "PORT" := "70000" ]} ["home"; "dev"] ["srv"; "site"] root_files
    (fun _ _ => false)
    (fun _ _ => Some (Py.OverflowError "bind(): port must be 0-65535."))
    "box" (fun _ => Some "10.0.0.2") None OS.Interrupted.


(** Every port of the scan range is taken. *)
Definition all_taken : OS.world :=
  OS.mkWorld ∅ ["home"; "dev"] ["srv"; "site"] root_files
    (fun _ _ => true)
    (fun _ _ => None) "box" (fun _ => Some "10.0.0.2") None OS.Interrupted.

(** The serving root has no [index.html]. *)
Definition no_index : OS.world :=
  OS.mkWorld ∅ ["home"; "dev"] ["srv"; "site"] {[ ["srv"; "site"; "logo.png"] ]}
    (fun _ _ => false)
    (fun _ _ => None) "box" (fun _ => Some "10.0.0.2") None OS.Interrupted.

(** The serve loop dies with an exception. *)
Definition loop_crashes : OS.world :=
  OS.mkWorld ∅ ["home"; "dev"] ["srv"; "site"] root_files
    (fun _ _ => false)
    (fun _ _ => None) "box" (fun _ => Some "10.0.0.2") None
    (OS.Failed (Py.OSError "[Errno 9] Bad file descriptor")).

(** The port found by the scan cannot be bound by the server. *)
Definition bind_fails : OS.world :=
  OS.mkWorld ∅ ["home"; "dev"] ["srv"; "site"] root_files
    (fun _ _ => false)
    (fun _ _ => Some (Py.OSError "[Errno 98] Address already in use"))
    "box" (fun _ => Some "10.0.0.2") None OS.Interrupted.

(** No browser can be started. *)
Definition no_browser : OS.world :=
  OS.mkWorld ∅ ["home"; "dev"] ["srv"; "site"] root_files
    (fun _ _ => false)
    (fun _ _ => None) "box" (fun _ => Some "10.0.0.2")
    (Some (Py.OtherException "could not locate runnable browser"))
    OS.Interrupted.

(** The host name does not resolve; [HOST] is set. *)
Definition no_dns : OS.world :=
  OS.mkWorld {[ "HOST" := "127.0.0.1" ]} ["home"; "dev"] ["srv"; "site"] root_files
    (fun _ _ => false)
    (fun _ _ => None) "box" (fun _ => None) None OS.Interrupted.

(** A site that has [/index.html] only; the library finds it for the
    directory [/] as well. *)
Definition one_page : Http.site :=
  Http.mkSite
    (fun p _ => if decide (p = "/index.html")
                then Http.File "text/html" 5 "Mon, 02 Nov 2026 09:00:00 GMT" "hello"
                else if decide (p = "/")
                then Http.File "text/html" 5 "Mon, 02 Nov 2026 09:00:00 GMT" "hello"
                else Http.NotFound)
    (fun c => if decide (c = 404) then Some ("Not Found", "Nothing matches the given URI")
              else if decide (c = 200) then Some ("OK", "Request fulfilled, document follows")
              else None)
    (fun c m e => "<h1>" +:+ m +:+ "</h1>")
    "SimpleHTTP/0.6 Python/3.11.2"
    "Tue, 03 Nov 2026 10:00:00 GMT"
    "03/Nov/2026 10:00:00".

(** A serving root without [index.html]: the library lists the
    directory for [/]. *)
Definition bare_directory : Http.site :=
  Http.mkSite
    (fun p _ => if decide (p = "/")
                then Http.Listing (Some ("utf-8", "<ul></ul>"))
                else Http.NotFound)
    (fun c => if decide (c = 404) then Some ("Not Found", "Nothing matches the given URI")
              else if decide (c = 200) then Some ("OK", "Request fulfilled, document follows")
              else None)
    (fun c m e => "<h1>" +:+ m +:+ "</h1>")
    "SimpleHTTP/0.6 Python/3.11.2"
    "Tue, 03 Nov 2026 10:00:00 GMT"
    "03/Nov/2026 10:00:00".

Definition crlf : string :=
  String (Ascii.ascii_of_nat 13) (String (Ascii.ascii_of_nat 10) EmptyString).

(** A request line as it arrives, followed by no header. *)
Definition request (line : string) : Http.inbound :=
  Http.mkInbound (line +:+ crlf) (inr []).

End Examples.

(** * Properties *)

(** ** [int] on sample strings *)

Example int_plain : Py.int "8000" = inr 8000%Z.
Proof. reflexivity. Qed.
Example int_spaces : Py.int " 8080 " = inr 8080%Z.
Proof. reflexivity. Qed.
Example int_signed : Py.int "-5" = inr (-5)%Z.
Proof. reflexivity. Qed.
Example int_underscore : Py.int "1_000" = inr 1000%Z.
Proof. reflexivity. Qed.
Example int_zeros : Py.int "008" = inr 8%Z.
Proof. reflexivity. Qed.
Example int_rejects_double_underscore :
  Py.int "1__0" = inl (Py.ValueError "invalid literal for int() with base 10: '1__0'").
Proof. reflexivity. Qed.
Example int_other_scripts :
  Py.int "٨٠٨٠" = inr 8080%Z /\ Py.int "８０" = inr 80%Z.
Proof. split; vm_compute; reflexivity. Qed.
Example int_no_break_space :
  Py.int (Py.text [160; 56; 48; 56; 48]%Z) = inr 8080%Z.
Proof. vm_compute. reflexivity. Qed.
Example int_rejects_words :
  Py.int "http" = inl (Py.ValueError "invalid literal for int() with base 10: 'http'").
Proof. reflexivity. Qed.

(** ** The request handler *)

Module HttpFacts.
Import Http.

Section Replies.
Variable S : site.

Local Abbreviation Custom := (CustomHTTPRequestHandler S).

Lemma buffered_trans h1 h2 h3 l1 l2 :
  buffered h1 h2 l1 -> buffered h2 h3 l2 -> buffered h1 h3 (l1 ++ l2).
Proof.
  intros (Hv1 & Hc1 & Hw1 & Hb1) (Hv2 & Hc2 & Hw2 & Hb2).
  repeat split; try congruence.
  rewrite Hb2, Hb1. by rewrite <- app_assoc.
Qed.

Lemma send_header_buffered k v h :
  request_version h <> "HTTP/0.9" ->
  buffered h (send_header k v h) [Header k v].
Proof.
  intros Hv. unfold send_header.
  destruct (decide (request_version h = "HTTP/0.9")) as [|_]; [done|].
  repeat case_decide; repeat split.
Qed.

Lemma send_response_only_buffered code m h :
  request_version h <> "HTTP/0.9" ->
  exists msg, buffered h (send_response_only S code m h)
                [StatusLine protocol_version code msg].
Proof.
  intros Hv. unfold send_response_only.
  destruct (decide (request_version h = "HTTP/0.9")) as [|_]; [done|].
  eexists. repeat split.
Qed.

Lemma log_message_buffered msg h :
  buffered h (log_message (methods := Custom) msg h) [].
Proof. repeat split. simpl. by rewrite app_nil_r. Qed.

Lemma send_response_buffered code m h :
  request_version h <> "HTTP/0.9" ->
  exists msg,
    buffered h (send_response S (self := Custom) code m h)
      [StatusLine protocol_version code msg;
       Header "Server" (version_string S);
       Header "Date" (date_time_string S)].
Proof.
  intros Hv. unfold send_response, log_request.
  set (h1 := log_message _ h).
  assert (H1 : buffered h h1 []) by apply log_message_buffered.
  assert (Hv1 : request_version h1 <> "HTTP/0.9") by (destruct H1 as [-> _]; done).
  destruct (send_response_only_buffered code m h1 Hv1) as [msg H2].
  set (h2 := send_response_only S code m h1) in *.
  assert (Hv2 : request_version h2 <> "HTTP/0.9") by (destruct H2 as [-> _]; done).
  pose proof (send_header_buffered "Server" (version_string S) h2 Hv2) as H3.
  set (h3 := send_header "Server" (version_string S) h2) in *.
  assert (Hv3 : request_version h3 <> "HTTP/0.9") by (destruct H3 as [-> _]; done).
  pose proof (send_header_buffered "Date" (date_time_string S) h3 Hv3) as H4.
  exists msg.
  exact (buffered_trans _ _ _ _ _ (buffered_trans _ _ _ _ _
           (buffered_trans _ _ _ _ _ H1 H2) H3) H4).
Qed.

(** The overridden [end_headers] on a request that is not HTTP/0.9:
    the buffer, the six headers and the blank line go out as one block. *)
Lemma then_send_header h0 h ls k v :
  request_version h0 <> "HTTP/0.9" ->
  buffered h0 h ls ->
  buffered h0 (send_header k v h) (ls ++ [Header k v]).
Proof.
  intros Hv Hb. eapply buffered_trans; [exact Hb|].
  apply send_header_buffered. destruct Hb as [-> _]. done.
Qed.

Lemma base_end_headers_flush h :
  request_version h <> "HTTP/0.9" ->
  request_version (base_end_headers h) = request_version h /\
  command (base_end_headers h) = command h /\
  headers_buffer (base_end_headers h) = [] /\
  wfile (base_end_headers h) = wfile h ++ [Head (headers_buffer h ++ [Blank])].
Proof.
  intros Hv. unfold base_end_headers.
  destruct (decide (request_version h = "HTTP/0.9")) as [|_]; [done|].
  repeat split.
Qed.

Lemma custom_end_headers_flush h :
  request_version h <> "HTTP/0.9" ->
  request_version (custom_end_headers h) = request_version h /\
  command (custom_end_headers h) = command h /\
  headers_buffer (custom_end_headers h) = [] /\
  wfile (custom_end_headers h) =
    wfile h ++ [Head (headers_buffer h ++ injected ++ [Blank])].
Proof.
  intros Hv. unfold custom_end_headers.
  assert (B0 : buffered h h []) by (repeat split; by rewrite app_nil_r).
  pose proof (then_send_header _ _ _ "Access-Control-Allow-Origin" "*" Hv B0) as B1.
  pose proof (then_send_header _ _ _ "Access-Control-Allow-Methods"
                "GET, POST, OPTIONS" Hv B1) as B2.
  pose proof (then_send_header _ _ _ "Access-Control-Allow-Headers"
                "Content-Type" Hv B2) as B3.
  pose proof (then_send_header _ _ _ "X-Content-Type-Options" "nosniff" Hv B3) as B4.
  pose proof (then_send_header _ _ _ "X-Frame-Options" "DENY" Hv B4) as B5.
  pose proof (then_send_header _ _ _ "X-XSS-Protection" "1; mode=block" Hv B5) as B6.
  destruct B6 as (Ev & Ec & Ew & Eb).
  match type of Ev with request_version ?x = _ => set (h6 := x) in * end.
  destruct (base_end_headers_flush h6) as (E1 & E2 & E3 & E4); [congruence|].
  rewrite E1, E2, E3, E4, Ev, Ec, Ew, Eb. repeat split.
  do 2 f_equal. rewrite <- app_assoc. reflexivity.
Qed.

Lemma then_send_response h0 h ls code m :
  request_version h0 <> "HTTP/0.9" ->
  buffered h0 h ls ->
  exists msg,
    buffered h0 (send_response S (self := Custom) code m h)
      (ls ++ [StatusLine protocol_version code msg;
              Header "Server" (version_string S);
              Header "Date" (date_time_string S)]).
Proof.
  intros Hv Hb.
  destruct (send_response_buffered code m h) as [msg Hr].
  { destruct Hb as [-> _]. done. }
  exists msg. eapply buffered_trans; eassumption.
Qed.

Lemma then_end_headers h0 h ls :
  request_version h0 <> "HTTP/0.9" ->
  buffered h0 h ls ->
  request_version (end_headers (methods := Custom) h) = request_version h0 /\
  command (end_headers (methods := Custom) h) = command h0 /\
  wfile (end_headers (methods := Custom) h) =
    wfile h0 ++ [Head (headers_buffer h0 ++ ls ++ injected ++ [Blank])].
Proof.
  intros Hv (Hv' & Hc & Hw & Hb).
  destruct (custom_end_headers_flush h) as (E1 & E2 & _ & E4); [congruence|].
  cbn [end_headers Custom CustomHTTPRequestHandler].
  rewrite E1, E2, E4, Hv', Hc, Hw, Hb.
  repeat split. by rewrite <- !app_assoc.
Qed.

Ltac shape E :=
  cbn [fst wfile write]; rewrite E; cbn [app];
  rewrite <- ?app_assoc; cbn [app]; reflexivity.

Lemma send_error_replied code m ex h :
  request_version h <> "HTTP/0.9" ->
  replied h (send_error S (self := Custom) code m ex h).
Proof.
  intros Hv. unfold send_error.
  destruct (default ("???", "???") (responses S code)) as [shortmsg longmsg].
  unfold log_error.
  set (txt := default shortmsg m).
  set (h1 := log_message _ h).
  assert (B1 : buffered h h1 []) by apply log_message_buffered.
  destruct (then_send_response h h1 [] code (Some txt) Hv B1) as [msg B2].
  pose proof (then_send_header _ _ _ "Connection" "close" Hv B2) as B3.
  destruct (_ && _)%bool.
  - set (body := error_page S code txt (default longmsg ex)).
    pose proof (then_send_header _ _ _ "Content-Type" error_content_type Hv B3) as B4.
    pose proof (then_send_header _ _ _ "Content-Length"
                  (Py.str (Z.of_nat (String.length body))) Hv B4) as B5.
    destruct (then_end_headers _ _ _ Hv B5) as (_ & _ & E).
    exists code, msg,
      [Header "Server" (version_string S); Header "Date" (date_time_string S);
       Header "Connection" "close"; Header "Content-Type" error_content_type;
       Header "Content-Length" (Py.str (Z.of_nat (String.length body)))].
    destruct (_ && _)%bool.
    + exists [Body body]. split; [shape E|repeat constructor].
    + exists []. split; [shape E|constructor].
  - destruct (then_end_headers _ _ _ Hv B3) as (_ & _ & E).
    exists code, msg,
      [Header "Server" (version_string S); Header "Date" (date_time_string S);
       Header "Connection" "close"].
    exists []. split; [shape E|constructor].
Qed.




End Replies.

(** *** Replies do not depend on what is logged *)

Section Logging.
Variable S : site.
Local Abbreviation Custom := (CustomHTTPRequestHandler S).

Ltac fields h1 h2 H :=
  destruct h1, h2; unfold same_reply in *; cbn in *;
  destruct H as (? & ? & ? & ? & ? & ? & ?); subst.

Lemma send_header_same k v h1 h2 :
  same_reply h1 h2 -> same_reply (send_header k v h1) (send_header k v h2).
Proof.
  intros H. fields h1 h2 H. unfold send_header; cbn.
  repeat case_decide; cbn; repeat split.
Qed.

Lemma send_response_only_same code m h1 h2 :
  same_reply h1 h2 ->
  same_reply (send_response_only S code m h1) (send_response_only S code m h2).
Proof.
  intros H. fields h1 h2 H. unfold send_response_only; cbn.
  repeat case_decide; cbn; repeat split.
Qed.

Lemma log_message_same m1 m2 h1 h2 :
  same_reply h1 h2 ->
  same_reply (log_message (methods := Custom) m1 h1)
             (log_message (methods := Custom) m2 h2).
Proof. intros H. fields h1 h2 H. repeat split. Qed.

Lemma base_end_headers_same h1 h2 :
  same_reply h1 h2 -> same_reply (base_end_headers h1) (base_end_headers h2).
Proof.
  intros H. fields h1 h2 H. unfold base_end_headers; cbn.
  repeat case_decide; cbn; repeat split.
Qed.

Lemma end_headers_same h1 h2 :
  same_reply h1 h2 ->
  same_reply (end_headers (methods := Custom) h1)
             (end_headers (methods := Custom) h2).
Proof.
  intros H. cbn [end_headers Custom CustomHTTPRequestHandler].
  unfold custom_end_headers.
  apply base_end_headers_same. by do 6 apply send_header_same.
Qed.

Lemma write_same c h1 h2 :
  same_reply h1 h2 -> same_reply (write c h1) (write c h2).
Proof. intros H. fields h1 h2 H. repeat split. Qed.

Lemma send_response_same code m h1 h2 :
  same_reply h1 h2 ->
  same_reply (send_response S (self := Custom) code m h1)
             (send_response S (self := Custom) code m h2).
Proof.
  intros H. unfold send_response, log_request.
  do 2 apply send_header_same. apply send_response_only_same.
  by apply log_message_same.
Qed.

Lemma send_error_same code m ex h1 h2 :
  same_reply h1 h2 ->
  same_reply (send_error S (self := Custom) code m ex h1)
             (send_error S (self := Custom) code m ex h2).
Proof.
  intros H. unfold send_error, log_error.
  destruct (default ("???", "???") (responses S code)) as [shortmsg longmsg].
  destruct (_ && _)%bool.
  - match goal with
    | |- same_reply (if (negb (bool_decide (command ?a = _)) && _)%bool
                     then _ else _)
                    (if (negb (bool_decide (command ?b = _)) && _)%bool
                     then _ else _) =>
        assert (R : same_reply a b)
    end.
    { apply end_headers_same. do 3 apply send_header_same.
      apply send_response_same. by apply log_message_same. }
    destruct R as (Hc & R). rewrite Hc.
    destruct (_ && _)%bool; [apply write_same|]; by split.
  - apply end_headers_same, send_header_same, send_response_same.
    by apply log_message_same.
Qed.

Ltac same_step :=
  lazymatch goal with
  | |- same_reply (send_header _ _ _) (send_header _ _ _) =>
      apply send_header_same
  | |- same_reply (send_response _ _ _ _) (send_response _ _ _ _) =>
      apply send_response_same
  | |- same_reply (send_error _ _ _ _ _) (send_error _ _ _ _ _) =>
      apply send_error_same
  | |- same_reply (end_headers _) (end_headers _) =>
      apply end_headers_same
  end.

Lemma send_head_same h1 h2 :
  same_reply h1 h2 ->
  same_reply (send_head S (self := Custom) h1).1
             (send_head S (self := Custom) h2).1 /\
  (send_head S (self := Custom) h1).2 = (send_head S (self := Custom) h2).2.
Proof.
  intros H. unfold send_head.
  pose proof H as (_ & Hp & _ & Hh & _). rewrite Hp, Hh.
  destruct (resolve S (path h2) (headers h2)) as [?|[[??]|]| | |????];
    cbn [fst snd]; (split; [|reflexivity]); repeat same_step; exact H.
Qed.

Lemma base_do_GET_same h1 h2 :
  same_reply h1 h2 ->
  same_reply (base_do_GET S (self := Custom) h1)
             (base_do_GET S (self := Custom) h2).
Proof.
  intros H. unfold base_do_GET.
  destruct (send_head_same h1 h2 H) as [R E].
  destruct (send_head S h1) as [k1 f1], (send_head S h2) as [k2 f2].
  cbn [fst snd] in *. subst f2.
  destruct f1 as [f|]; [|exact R].
  case_bool_decide; [exact R|by apply write_same].
Qed.

End Logging.

End HttpFacts.

(** ** Port selection and start-up *)

Module MainFacts.
Import OS Main.
Local Open Scope Z_scope.

Section Steps.
Context {A B : Type}.

Lemma bind_return (m : M A) (k : A -> M B) st a st' :
  m st = (Return a, st') -> bind m k st = k a st'.
Proof. unfold bind. by intros ->. Qed.

Lemma bind_raise (m : M A) (k : A -> M B) st e st' :
  m st = (Raise e, st') -> bind m k st = (Raise e, st').
Proof. unfold bind. by intros ->. Qed.

Lemma try_except_return (m : M A) class h st a st' :
  m st = (Return a, st') -> try_except m class h st = (Return a, st').
Proof. unfold try_except, try_excepts. by intros ->. Qed.

Lemma try_except_caught (m : M A) class h st e st' :
  m st = (Raise e, st') -> class e = true ->
  try_except m class h st = h e st'.
Proof. unfold try_except, try_excepts. intros -> He. cbn. by rewrite He. Qed.

Lemma try_except_passed (m : M A) class h st e st' :
  m st = (Raise e, st') -> class e = false ->
  try_except m class h st = (Raise e, st').
Proof. unfold try_except, try_excepts. intros -> He. cbn. by rewrite He. Qed.

End Steps.

Section Scan.
Variable W : world.

Lemma probe_bind_free host p st :
  in_range p -> bind_refused W host p = false ->
  probe_bind W host p st = (Return tt, after st [ProbeBind host p]).
Proof.
  intros [H0 H1] Hf. unfold probe_bind, bind, emit. cbn.
  rewrite (proj2 (Z.leb_le 0 p) H0), (proj2 (Z.leb_le p 65535) H1), Hf.
  reflexivity.
Qed.

Lemma probe_bind_taken host p st :
  in_range p -> bind_refused W host p = true ->
  probe_bind W host p st =
    (Raise (Py.OSError "[Errno 98] Address already in use"),
     after st [ProbeBind host p]).
Proof.
  intros [H0 H1] Hf. unfold probe_bind, bind, emit. cbn.
  rewrite (proj2 (Z.leb_le 0 p) H0), (proj2 (Z.leb_le p 65535) H1), Hf.
  reflexivity.
Qed.

Lemma scan_ports_free p rest st :
  in_range p -> bind_refused W "0.0.0.0" p = false ->
  scan_ports W (p :: rest) st =
    (Return (Some p), after st [ProbeBind "0.0.0.0" p]).
Proof.
  intros Hr Hf. cbn [scan_ports].
  apply try_except_return.
  erewrite bind_return by (by apply probe_bind_free). reflexivity.
Qed.

Lemma scan_ports_taken p rest st :
  in_range p -> bind_refused W "0.0.0.0" p = true ->
  scan_ports W (p :: rest) st =
    scan_ports W rest (after st [ProbeBind "0.0.0.0" p]).
Proof.
  intros Hr Hf. cbn [scan_ports].
  erewrite (try_except_caught _ _ _ _
              (Py.OSError "[Errno 98] Address already in use")
              (after st [ProbeBind "0.0.0.0" p])); [reflexivity| |reflexivity].
  erewrite bind_raise by (by apply probe_bind_taken). reflexivity.
Qed.

Lemma after_after st l1 l2 : after (after st l1) l2 = after st (l1 ++ l2).
Proof. unfold after. cbn. by rewrite <- app_assoc. Qed.

(** The probes of a scan that meets [k] taken ports and then a free one. *)
Lemma scan_ports_first_free (k : nat) : forall start n st,
  in_range start -> in_range (start + Z.of_nat k) ->
  Z.of_nat k < n ->
  (forall i, 0 <= i < Z.of_nat k -> bind_refused W "0.0.0.0" (start + i) = true) ->
  bind_refused W "0.0.0.0" (start + Z.of_nat k) = false ->
  scan_ports W (seqZ start n) st =
    (Return (Some (start + Z.of_nat k)),
     after st (ProbeBind "0.0.0.0" <$> seqZ start (Z.of_nat k + 1))).
Proof.
  induction k as [|k IH]; intros start n st Hs He Hn Htaken Hfree.
  - rewrite seqZ_cons by lia. rewrite Z.add_0_r in *.
    by rewrite scan_ports_free.
  - rewrite seqZ_cons by lia.
    rewrite scan_ports_taken; [|done|].
    2:{ rewrite <- (Z.add_0_r start). apply Htaken. lia. }
    unfold in_range in *.
    rewrite (IH (Z.succ start) (Z.pred n)); [| lia | lia | lia | |].
    + rewrite after_after. f_equal; [do 2 f_equal; lia|]. f_equal.
      rewrite (seqZ_cons start (Z.of_nat (S k) + 1)) by lia.
      replace (Z.pred (Z.of_nat (S k) + 1)) with (Z.of_nat k + 1) by lia.
      reflexivity.
    + intros i Hi. replace (Z.succ start + i) with (start + (i + 1)) by lia.
      apply Htaken. lia.
    + replace (Z.succ start + Z.of_nat k) with (start + Z.of_nat (S k)) by lia.
      done.
Qed.

(** The probes of a scan over taken ports only. *)
Lemma scan_ports_all_taken (n : nat) : forall start st,
  in_range start -> in_range (start + Z.of_nat n) ->
  (forall i, 0 <= i < Z.of_nat n -> bind_refused W "0.0.0.0" (start + i) = true) ->
  scan_ports W (seqZ start (Z.of_nat n)) st =
    (Return None, after st (ProbeBind "0.0.0.0" <$> seqZ start (Z.of_nat n))).
Proof.
  induction n as [|n IH]; intros start st Hs He Htaken.
  - cbn. unfold ret, after. rewrite app_nil_r. by destruct st.
  - rewrite seqZ_cons by lia.
    rewrite scan_ports_taken; [|done|].
    2:{ rewrite <- (Z.add_0_r start). apply Htaken. lia. }
    unfold in_range in *.
    replace (Z.pred (Z.of_nat (S n))) with (Z.of_nat n) by lia.
    rewrite IH; [| lia | lia |].
    + by rewrite after_after.
    + intros i Hi. replace (Z.succ start + i) with (start + (i + 1)) by lia.
      apply Htaken. lia.
Qed.

Lemma scan_ports_found l : forall st p st',
  scan_ports W l st = (Return (Some p), st') -> p ∈ l.
Proof.
  induction l as [|q rest IH]; intros st p st' H.
  - discriminate.
  - cbn [scan_ports] in H.
    unfold try_except, try_excepts, bind, probe_bind, emit in H. cbn in H.
    destruct (negb _); [discriminate|].
    destruct (bind_refused W "0.0.0.0" q); cbn in H.
    + right. eapply IH, H.
    + injection H as -> _. by left.
Qed.

Lemma scan_ports_probes l : forall st,
  exists evs, (scan_ports W l st).2 = after st evs /\
              Forall is_wildcard_probe evs.
Proof.
  induction l as [|q rest IH]; intros st.
  - exists []. split; [|constructor]. cbn. unfold after.
    rewrite app_nil_r. by destruct st.
  - cbn [scan_ports].
    unfold try_except, try_excepts, bind, probe_bind, emit. cbn.
    assert (Hq : is_wildcard_probe (ProbeBind "0.0.0.0" q)) by (by exists q).
    destruct (negb _); cbn.
    { exists [ProbeBind "0.0.0.0" q]. split; [done|by constructor]. }
    destruct (bind_refused W "0.0.0.0" q); cbn.
    + destruct (IH (after st [ProbeBind "0.0.0.0" q])) as (evs & E & F).
      exists (ProbeBind "0.0.0.0" q :: evs). split; [|by constructor].
      change (mkState _ _) with (after st [ProbeBind "0.0.0.0" q]).
      rewrite E. by rewrite after_after.
    + exists [ProbeBind "0.0.0.0" q]. split; [done|by constructor].
Qed.

Lemma check_files_present st :
  joinpath (cwd st) "index.html" ∈ files W ->
  exists evs, check_files W st = (Return true, after st evs) /\
              Forall (fun e => is_Listen e = false) evs.
Proof.
  intros Hin. unfold check_files, bind, getcwd, path_exists, emit, print, ret.
  cbn. rewrite (bool_decide_eq_true_2 _ Hin). cbn.
  unfold bind, emit, ret. cbn.
  repeat (case_bool_decide; cbn);
    (eexists; split;
     [unfold after; cbn; rewrite <- ?app_assoc; reflexivity
     |repeat constructor]).
Qed.

End Scan.

(** C2.  When [PORT] is set to a string that [int] reads as [P],
    [find_free_port] returns [P] and leaves the state as it found it: no
    event is added to the trace, so no candidate port is probed. *)
Theorem find_free_port_returns_PORT
    (W : world) (s : string) (P start_port max_attempts : Z) (st : state) :
  environ W !! "PORT" = Some s ->
  Py.int s = inr P ->
  find_free_port W start_port max_attempts st = (Return P, st).
Proof.
  intros Henv Hint. unfold find_free_port. by rewrite Henv, Hint.
Qed.

(** C3.  When [PORT] is unset, ports 8000 .. 8000+k-1 refuse the bind,
    port 8000+k accepts it and k < 10, [find_free_port(8000)] returns
    8000+k, having probed 8000 .. 8000+k in ascending order. *)
Theorem find_free_port_first_free (W : world) (k : Z) (st : state) :
  environ W !! "PORT" = None ->
  0 <= k < 10 ->
  (forall i, 0 <= i < k -> bind_refused W "0.0.0.0" (8000 + i) = true) ->
  bind_refused W "0.0.0.0" (8000 + k) = false ->
  find_free_port W 8000 10 st =
    (Return (8000 + k),
     after st (ProbeBind "0.0.0.0" <$> seqZ 8000 (k + 1))).
Proof.
  intros Henv Hk Htaken Hfree. unfold find_free_port. rewrite Henv.
  erewrite bind_return.
  2:{ apply (scan_ports_first_free W (Z.to_nat k)); unfold in_range;
      rewrite ?Z2Nat.id by lia; try lia; done. }
  rewrite !Z2Nat.id by lia. reflexivity.
Qed.

(** C4.  When [PORT] is unset and ports 8000 .. 8009 all refuse the
    bind, [find_free_port(8000)] probes these ten ports and raises
    [OSError] with the message "Could not find a free port in range
    8000-8010" (the range as start and exclusive end); and, the index
    document being present, [start_server] catches it, prints the message
    after "Error: " and returns normally without ever calling
    [TCPServer]. *)
Theorem port_exhausted_aborts_startup
    (W : world) (HOST : string) (st : state) :
  environ W !! "PORT" = None ->
  (forall i, 0 <= i < 10 -> bind_refused W "0.0.0.0" (8000 + i) = true) ->
  joinpath (script_dir W) "index.html" ∈ files W ->
  (forall st0,
     find_free_port W 8000 10 st0 =
       (Raise (Py.OSError exhausted),
        after st0 (ProbeBind "0.0.0.0" <$> seqZ 8000 10))) /\
  exists evs,
    start_server W 8000 HOST st =
      (Return tt,
       mkState (script_dir W)
         (trace st ++ evs ++ [Print ("❌ Error: " +:+ exhausted)])) /\
    Forall (fun e => is_Listen e = false) evs.
Proof.
  intros Henv Htaken Hindex.
  assert (Hscan : forall st0,
    find_free_port W 8000 10 st0 =
      (Raise (Py.OSError exhausted),
       after st0 (ProbeBind "0.0.0.0" <$> seqZ 8000 10))).
  { intros st0. unfold find_free_port. rewrite Henv.
    erewrite bind_return.
    2:{ apply (scan_ports_all_taken W 10); unfold in_range; try lia.
        exact Htaken. }
    reflexivity. }
  split; [exact Hscan|].
  set (st1 := mkState (script_dir W) (trace st ++ [Chdir (script_dir W)])).
  destruct (check_files_present W st1 Hindex) as (evs & Hcheck & Hevs).
  exists ([Chdir (script_dir W)] ++ evs ++ (ProbeBind "0.0.0.0" <$> seqZ 8000 10)).
  split.
  - unfold start_server, try_excepts, start_server_body.
    unfold bind at 1. unfold chdir at 1. fold st1.
    erewrite bind_return by exact Hcheck. cbn [negb].
    erewrite bind_return.
    2:{ erewrite (try_except_caught _ _ _ _ (Py.OSError exhausted)
                    (after (after st1 evs) (ProbeBind "0.0.0.0" <$> seqZ 8000 10)));
          [reflexivity| |reflexivity].
        erewrite bind_raise by apply Hscan. reflexivity. }
    unfold ret, print, emit, after. cbn [cwd trace st1].
    do 2 f_equal. rewrite <- !app_assoc. reflexivity.
  - apply Forall_app. split; [by repeat constructor|].
    apply Forall_app. split; [exact Hevs|]. by repeat constructor.
Qed.

(** C6.  When the serving root has no [index.html], [start_server]
    changes to the script's directory, looks for the file, prints the two
    lines of the error and returns: no port is probed and [TCPServer] is
    never called. *)
Theorem missing_index_aborts_startup
    (W : world) (PORT : Z) (HOST : string) (st : state) :
  joinpath (script_dir W) "index.html" ∉ files W ->
  start_server W PORT HOST st =
    (Return tt,
     mkState (script_dir W)
       (trace st ++
        [ Chdir (script_dir W);
          Exists (joinpath (script_dir W) "index.html");
          Print ("❌ Error: index.html not found in " +:+ str_path (script_dir W));
          Print "   Make sure you're running this script from the same directory as index.html" ])) /\
  Forall (fun e => is_Listen e = false /\ is_ProbeBind e = false)
    [ Chdir (script_dir W);
      Exists (joinpath (script_dir W) "index.html");
      Print ("❌ Error: index.html not found in " +:+ str_path (script_dir W));
      Print "   Make sure you're running this script from the same directory as index.html" ].
Proof.
  intros Hno. split; [|by repeat constructor].
  unfold start_server, try_excepts, start_server_body, check_files.
  unfold bind, chdir, getcwd, path_exists, emit, print, ret. cbn.
  rewrite (bool_decide_eq_false_2 _ Hno). cbn.
  rewrite <- !app_assoc. reflexivity.
Qed.

(** C8 (amended).  When [find_free_port(8000)] returns a port: with
    [PORT] unset it is one of 8000 .. 8009, the candidate whose throwaway
    bind succeeded, hence a valid TCP port; with [PORT] set it is the
    integer the variable reads as, whatever its value: the script checks
    no range. *)
Theorem resolved_port (W : world) (st st' : state) (p : Z) :
  find_free_port W 8000 10 st = (Return p, st') ->
  match environ W !! "PORT" with
  | None =>
      8000 <= p <= 8009 /\ 1 <= p <= 65535 /\
      bind_refused W "0.0.0.0" p = false
  | Some s => Py.int s = inr p
  end.
Proof.
  unfold find_free_port. destruct (environ W !! "PORT") as [s|].
  - destruct (Py.int s) as [e|v]; cbn; [discriminate|]. by intros [= ->].
  - unfold bind. destruct (scan_ports W (seqZ 8000 10) st) as [[[q|]|e|] st1] eqn:E;
      cbn; try discriminate.
    intros [= -> ->].
    pose proof (scan_ports_found W _ _ _ _ E) as Hin.
    apply elem_of_seqZ in Hin.
    repeat split; try lia.
    clear Hin. revert E. generalize (seqZ 8000 10). intros l. revert st.
    induction l as [|q rest IH]; intros st; [discriminate|].
    cbn [scan_ports].
    unfold try_except, try_excepts, bind, probe_bind, emit. cbn.
    destruct (negb _); [discriminate|].
    destruct (bind_refused W "0.0.0.0" q) eqn:Hq; cbn.
    + apply IH.
    + by intros [= <- _].
Qed.


(** *** How the process ends *)

Section Termination.
Context {A B : Type}.

Lemma returns_ret (a : A) : returns (ret a).
Proof. intros st. by exists a, st. Qed.

Lemma returns_bind (m : M A) (k : A -> M B) :
  returns m -> (forall a, returns (k a)) -> returns (bind m k).
Proof.
  intros Hm Hk st. destruct (Hm st) as (a & st' & E).
  destruct (Hk a st') as (b & st'' & E').
  exists b, st''. unfold bind. by rewrite E.
Qed.

Lemma halts_returns (m : M A) : returns m -> halts m.
Proof. intros Hm st. destruct (Hm st) as (a & st' & ->). done. Qed.

Lemma halts_raise (e : Py.exn) : halts (raise (A := A) e).
Proof. by intros st. Qed.

Lemma halts_bind (m : M A) (k : A -> M B) :
  halts m -> (forall a, halts (k a)) -> halts (bind m k).
Proof.
  intros Hm Hk st. unfold bind. specialize (Hm st).
  destruct (m st) as [[a|e|] st']; [apply Hk|done|done].
Qed.

Lemma halts_try_excepts (m : M A) clauses :
  halts m -> Forall (fun c => forall e, halts (c.2 e)) clauses ->
  halts (try_excepts m clauses).
Proof.
  intros Hm Hc st. unfold try_excepts. specialize (Hm st).
  destruct (m st) as [[a|e|] st']; [done| |done].
  clear Hm. induction Hc as [|[class h] rest Hh _ IH]; cbn; [done|].
  destruct (class e); [apply Hh|apply IH].
Qed.

Lemma halts_try_except (m : M A) class h :
  halts m -> (forall e, halts (h e)) -> halts (try_except m class h).
Proof. intros Hm Hh. apply halts_try_excepts; [done|]. by repeat constructor. Qed.

Lemma halts_try_finally (m : M A) (f : M unit) :
  halts m -> halts f -> halts (try_finally m f).
Proof.
  intros Hm Hf st. unfold try_finally. specialize (Hm st).
  destruct (m st) as [[a|e|] st']; [| |done].
  - unfold bind. specialize (Hf st'). by destruct (f st') as [[[]|?|] ?].
  - unfold bind. specialize (Hf st'). by destruct (f st') as [[[]|?|] ?].
Qed.

End Termination.

Lemma returns_emit e : returns (emit e).
Proof. intros st. by eexists _, _. Qed.

Lemma returns_print s : returns (print s).
Proof. apply returns_emit. Qed.

Lemma returns_getcwd : returns getcwd.
Proof. intros st. by eexists _, _. Qed.

Lemma returns_chdir p : returns (chdir p).
Proof. intros st. by eexists _, _. Qed.

Lemma returns_when b m : returns m -> returns (when b m).
Proof. destruct b; [done|]. intros _. apply returns_ret. Qed.

Create HintDb py discriminated.

#[local] Hint Resolve returns_ret returns_emit returns_print returns_getcwd
  returns_chdir returns_when : py.
#[local] Hint Extern 2 (returns (bind _ _)) =>
  apply returns_bind; [|intros ?] : py.
#[local] Hint Extern 2 (returns (if ?b then _ else _)) => destruct b : py.

Section Ends.
Variable W : world.

Lemma returns_path_exists p : returns (path_exists W p).
Proof. unfold path_exists. auto with py. Qed.

Lemma returns_any_exists ps : returns (any_exists W ps).
Proof.
  induction ps as [|p ps IH]; cbn [any_exists]; [auto with py|].
  apply returns_bind; [apply returns_path_exists|].
  intros []; auto with py.
Qed.

Lemma returns_check_files : returns (check_files W).
Proof.
  unfold check_files.
  apply returns_bind; [auto with py|]. intros d.
  apply returns_bind; [apply returns_path_exists|]. intros [|]; cbn [negb].
  - apply returns_bind; [apply returns_any_exists|]. intros [|]; cbn [negb];
      auto 10 with py.
  - auto 10 with py.
Qed.

Lemma returns_show_network_info PORT : returns (show_network_info W PORT).
Proof.
  intros st. unfold show_network_info, try_except, try_excepts.
  unfold gethostname, gethostbyname.
  rewrite (bind_return _ _ st (hostname W) st) by reflexivity.
  destruct (host_by_name W (hostname W)) as [ip|].
  - rewrite (bind_return _ _ st ip st) by reflexivity.
    match goal with |- exists a st', (let (_, _) := ?m st in _) = _ =>
      assert (Hm : returns m) by auto 10 with py;
      destruct (Hm st) as (a & st' & ->)
    end.
    by exists a, st'.
  - rewrite (bind_raise _ _ st (Py.OSError "[Errno -2] Name or service not known") st)
      by reflexivity.
    cbn. by eexists _, _.
Qed.

Lemma halts_probe_bind host p : halts (probe_bind W host p).
Proof.
  intros st. unfold probe_bind, bind, emit. cbn.
  destruct (negb _); [done|]. by destruct (bind_refused W host p).
Qed.

Lemma halts_scan_ports l : halts (scan_ports W l).
Proof.
  induction l as [|q rest IH]; cbn [scan_ports].
  - apply halts_returns, returns_ret.
  - apply halts_try_except; [|done].
    apply halts_bind; [apply halts_probe_bind|].
    intros _. apply halts_returns, returns_ret.
Qed.

Lemma halts_find_free_port start_port max_attempts :
  halts (find_free_port W start_port max_attempts).
Proof.
  unfold find_free_port. destruct (environ W !! "PORT") as [s|].
  - destruct (Py.int s); [apply halts_raise|apply halts_returns, returns_ret].
  - apply halts_bind; [apply halts_scan_ports|].
    intros [q|]; [apply halts_returns, returns_ret|apply halts_raise].
Qed.

Lemma halts_tcp_server host p : halts (tcp_server W host p).
Proof.
  intros st. unfold tcp_server, bind, emit. cbn.
  by destruct (listen_error W host p).
Qed.

Lemma halts_webbrowser_open url : halts (webbrowser_open W url).
Proof.
  intros st. unfold webbrowser_open, bind, emit. cbn.
  by destruct (browser_error W).
Qed.

Lemma halts_serve_body HOST port :
  serve_forever_end W <> Never -> halts (serve_body W HOST port).
Proof.
  intros Hend. unfold serve_body.
  repeat (apply halts_bind;
          [first [ apply halts_returns; solve [auto 10 with py]
                 | apply halts_try_except;
                   [apply halts_bind;
                    [apply halts_webbrowser_open
                    |intros _; apply halts_returns; auto with py]
                   |intros e; apply halts_returns; auto 10 with py] ]
          |intros _]).
  destruct (serve_forever_end W); [apply halts_raise|apply halts_raise|done].
Qed.

Lemma halts_start_server_body PORT HOST :
  serve_forever_end W <> Never -> halts (start_server_body W PORT HOST).
Proof.
  intros Hend. unfold start_server_body.
  apply halts_bind; [apply halts_returns, returns_chdir|]. intros _.
  apply halts_bind; [apply halts_returns, returns_check_files|].
  intros [|]; cbn [negb]; [|apply halts_returns, returns_ret].
  apply halts_bind.
  - apply halts_try_except.
    + apply halts_bind; [apply halts_find_free_port|].
      intros p. apply halts_returns, returns_ret.
    + intros e. apply halts_returns, returns_ret.
  - intros [e|port].
    + apply halts_returns, returns_print.
    + apply halts_bind; [apply halts_tcp_server|]. intros _.
      apply halts_try_finally; [by apply halts_serve_body|].
      apply halts_returns, returns_emit.
Qed.

(** [start_server] handles whatever is raised in its [try] block. *)
Lemma returns_start_server PORT HOST :
  serve_forever_end W <> Never -> returns (start_server W PORT HOST).
Proof.
  intros Hend st. unfold start_server, try_excepts.
  pose proof (halts_start_server_body PORT HOST Hend st) as Hh.
  destruct (start_server_body W PORT HOST st) as [[[]|e|] st']; [| |done].
  - by eexists _, _.
  - cbn [handle_exception]. destruct e; cbn; by eexists _, _.
Qed.

End Ends.

(** C7 (amended).  Whenever the top-level [int(...)] goes through and the
    serve loop does not run for ever, the script runs to its end and the
    process exits with code 0: after Ctrl+C, and just as well after an
    exception during start-up or in the serve loop, which [start_server]
    catches and prints. *)
Theorem exit_code_is_zero (W : world) :
  PORT_is_usable W ->
  serve_forever_end W <> Never ->
  exit_status W = Exit 0.
Proof.
  intros Hport Hend.
  assert (Hrun : exists st', run W = (Return tt, st')).
  { unfold run, script.
    assert (HP : exists P, module_PORT W (initial W) = (Return P, initial W)).
    { unfold module_PORT, PORT_is_usable in *.
      destruct (environ W !! "PORT") as [s|]; [|by eexists].
      destruct Hport as [P ->]. by exists P. }
    destruct HP as [P HP]. rewrite (bind_return _ _ _ _ _ HP).
    unfold module_HOST.
    erewrite bind_return by reflexivity.
    assert (Hmain : returns (main W P (default "0.0.0.0" (environ W !! "HOST")))).
    { unfold main.
      apply returns_bind; [apply returns_print|]. intros _.
      apply returns_bind; [apply returns_print|]. intros _.
      apply returns_bind; [apply returns_show_network_info|]. intros _.
      by apply returns_start_server. }
    destruct (Hmain (initial W)) as ([] & st' & ->). by exists st'. }
  destruct Hrun as [st' Hrun]. unfold exit_status. by rewrite Hrun.
Qed.

(** *** The theorems at the sample surroundings *)

Lemma deployed_uses_8080 :
  environ Examples.deployed !! "PORT" = Some "8080" /\
  Py.int "8080" = inr 8080 /\
  find_free_port Examples.deployed 8000 10 (initial Examples.deployed) =
    (Return 8080, initial Examples.deployed).
Proof.
  split; [reflexivity|]. split; [reflexivity|].
  apply (find_free_port_returns_PORT Examples.deployed "8080" 8080 8000 10);
    reflexivity.
Defined.

Lemma dev_box_gets_8003 :
  find_free_port Examples.dev_box 8000 10 (initial Examples.dev_box) =
    (Return (8000 + 3),
     after (initial Examples.dev_box) (ProbeBind "0.0.0.0" <$> seqZ 8000 (3 + 1))).
Proof.
  apply (find_free_port_first_free Examples.dev_box 3).
  - reflexivity.
  - lia.
  - intros i Hi. cbn. apply andb_true_intro. split.
    + apply Z.leb_le. lia.
    + apply Z.ltb_lt. lia.
  - reflexivity.
Defined.

Lemma index_of_sample_root :
  joinpath (script_dir Examples.all_taken) "index.html" ∈ files Examples.all_taken.
Proof. refine (bool_decide_unpack _ _). vm_compute. exact I. Defined.

Lemma all_taken_aborts :
  (forall st0,
     find_free_port Examples.all_taken 8000 10 st0 =
       (Raise (Py.OSError exhausted),
        after st0 (ProbeBind "0.0.0.0" <$> seqZ 8000 10))) /\
  exists evs,
    start_server Examples.all_taken 8000 "0.0.0.0" (initial Examples.all_taken) =
      (Return tt,
       mkState (script_dir Examples.all_taken)
         (trace (initial Examples.all_taken) ++ evs ++
          [Print ("❌ Error: " +:+ exhausted)])) /\
    Forall (fun e => is_Listen e = false) evs.
Proof.
  apply (port_exhausted_aborts_startup Examples.all_taken "0.0.0.0").
  - reflexivity.
  - intros i Hi. reflexivity.
  - exact index_of_sample_root.
Defined.

Lemma no_index_not_in_files :
  joinpath (script_dir Examples.no_index) "index.html" ∉ files Examples.no_index.
Proof. refine (bool_decide_unpack _ _). vm_compute. exact I. Defined.

Lemma no_index_aborts :
  (start_server Examples.no_index 8000 "0.0.0.0" (initial Examples.no_index)).1
    = Return tt /\
  Forall (fun e => is_Listen e = false)
    (trace (start_server Examples.no_index 8000 "0.0.0.0"
              (initial Examples.no_index)).2).
Proof.
  destruct (missing_index_aborts_startup Examples.no_index 8000 "0.0.0.0"
              (initial Examples.no_index) no_index_not_in_files) as [E F].
  rewrite E. split; [reflexivity|].
  cbn [snd trace initial app]. eapply Forall_impl; [exact F|].
  by intros e [? _].
Defined.

Lemma dev_box_exits_0 :
  PORT_is_usable Examples.dev_box /\
  serve_forever_end Examples.dev_box <> Never /\
  exit_status Examples.dev_box = Exit 0.
Proof.
  assert (H1 : PORT_is_usable Examples.dev_box) by exact I.
  assert (H2 : serve_forever_end Examples.dev_box <> Never) by discriminate.
  split; [exact H1|]. split; [exact H2|].
  exact (exit_code_is_zero Examples.dev_box H1 H2).
Defined.

(** C7 fails as stated: an exception that ends the serve loop, and one
    raised when the listener is bound, are both caught by [start_server];
    the process prints the error and exits with code 0. *)
Lemma exception_exits_0 :
  (serve_forever_end Examples.loop_crashes =
     Failed (Py.OSError "[Errno 9] Bad file descriptor") /\
   ServeForever ∈ events Examples.loop_crashes /\
   exit_status Examples.loop_crashes = Exit 0) /\
  (listen_error Examples.bind_fails "0.0.0.0" 8000 =
     Some (Py.OSError "[Errno 98] Address already in use") /\
   Listen "0.0.0.0" 8000 ∈ events Examples.bind_fails /\
   exit_status Examples.bind_fails = Exit 0).
Proof.
  repeat split;
    try (refine (bool_decide_unpack _ _); vm_compute; exact I);
    vm_compute; reflexivity.
Qed.

Lemma dev_box_port_in_range :
  find_free_port Examples.dev_box 8000 10 (initial Examples.dev_box) =
    (Return 8003,
     after (initial Examples.dev_box) (ProbeBind "0.0.0.0" <$> seqZ 8000 4)) /\
  8000 <= 8003 <= 8009 /\ 1 <= 8003 <= 65535 /\
  bind_refused Examples.dev_box "0.0.0.0" 8003 = false.
Proof.
  assert (E : find_free_port Examples.dev_box 8000 10 (initial Examples.dev_box) =
    (Return 8003,
     after (initial Examples.dev_box) (ProbeBind "0.0.0.0" <$> seqZ 8000 4)))
    by (vm_compute; reflexivity).
  split; [exact E|].
  exact (resolved_port Examples.dev_box _ _ 8003 E).
Defined.

(** C8 fails as stated: [PORT=70000] is returned as it is. *)
Lemma PORT_70000_is_returned :
  find_free_port Examples.port_too_big 8000 10 (initial Examples.port_too_big) =
    (Return 70000, initial Examples.port_too_big) /\
  ~ (1 <= 70000 <= 65535).
Proof. split; [vm_compute; reflexivity|lia]. Qed.


End MainFacts.

(** ** More on port selection *)

Module PortScan.
Import OS Main MainFacts.
Local Open Scope Z_scope.

Section Outcomes.
Variable W : world.

Lemma probe_bind_out_of_range host p st :
  ~ in_range p ->
  probe_bind W host p st =
    (Raise (Py.OverflowError "bind(): port must be 0-65535."),
     after st [ProbeBind host p]).
Proof.
  intros Hr. unfold probe_bind, bind, emit. cbn.
  destruct (0 <=? p) eqn:E0; destruct (p <=? 65535) eqn:E1; cbn; try reflexivity.
  destruct Hr. split; [by apply Z.leb_le|by apply Z.leb_le].
Qed.

Lemma in_range_dec p : {in_range p} + {~ in_range p}.
Proof. unfold in_range. destruct (decide (0 <= p <= 65535)); auto. Qed.

Lemma scan_ports_end l : forall st, scan_end W l st (scan_ports W l st).
Proof.
  induction l as [|q rest IH]; intros st.
  - replace (scan_ports W [] st) with (Return (@None Z), after st (probes [])).
    + by constructor.
    + cbn. unfold ret, after. cbn. rewrite app_nil_r. by destruct st.
  - destruct (in_range_dec q) as [Hr|Hr].
    + destruct (bind_refused W "0.0.0.0" q) eqn:Hq.
      * rewrite scan_ports_taken by done.
        destruct (IH (after st [ProbeBind "0.0.0.0" q]))
          as [l1 p l2 -> Hl1 Hp Hfree| Hall |l1 p l2 -> Hl1 Hp];
          rewrite after_after.
        -- apply (scan_found _ _ _ (q :: l1) p l2); try done.
           constructor; [by split|done].
        -- apply scan_exhausted. constructor; [by split|done].
        -- apply (scan_overflow _ _ _ (q :: l1) p l2); try done.
           constructor; [by split|done].
      * rewrite scan_ports_free by done.
        by apply (scan_found _ _ _ [] q rest).
    + replace (scan_ports W (q :: rest) st) with
        (Raise (A := option Z) (Py.OverflowError "bind(): port must be 0-65535."),
         after st (probes ([] ++ [q]))).
      * by apply (scan_overflow _ _ _ [] q rest).
      * cbn [scan_ports]. symmetry.
        erewrite (try_except_passed _ _ _ _
                    (Py.OverflowError "bind(): port must be 0-65535.")
                    (after st [ProbeBind "0.0.0.0" q]));
          [reflexivity| |reflexivity].
        erewrite bind_raise by (by apply probe_bind_out_of_range). reflexivity.
Qed.

(** In [seqZ start n = l1 ++ p :: l2], [p] is the candidate after those
    of [l1], which are all the candidates below it. *)
Lemma seqZ_split start n l1 p l2 :
  seqZ start n = l1 ++ p :: l2 ->
  start <= p < start + n /\ l1 = seqZ start (p - start).
Proof.
  intros E.
  assert (Hp : seqZ start n !! length l1 = Some p).
  { rewrite E. by rewrite list_lookup_middle. }
  apply lookup_seqZ in Hp as [-> Hlen]. split; [lia|].
  replace (start + Z.of_nat (length l1) - start) with (Z.of_nat (length l1)) by lia.
  replace n with (Z.of_nat (length l1) + (n - Z.of_nat (length l1))) in E by lia.
  rewrite seqZ_app in E by lia.
  apply app_inj_1 in E as [E _]; [done|].
  rewrite length_seqZ. lia.
Qed.

Lemma probes_upto start p :
  start <= p ->
  probes (seqZ start (p - start) ++ [p]) = probes (seqZ start (p - start + 1)).
Proof.
  intros Hp. f_equal. rewrite (seqZ_app start (p - start) 1) by lia.
  f_equal. replace (start + (p - start)) with p by lia. reflexivity.
Qed.

Lemma find_free_port_scan start_port max_attempts st :
  environ W !! "PORT" = None ->
  find_free_port W start_port max_attempts st =
    match scan_ports W (seqZ start_port max_attempts) st with
    | (Return (Some p), st') => (Return p, st')
    | (Return None, st') =>
        (Raise (Py.OSError (exhausted_message start_port max_attempts)), st')
    | (Raise e, st') => (Raise e, st')
    | (Diverge, st') => (Diverge, st')
    end.
Proof.
  intros Henv. unfold find_free_port, bind. rewrite Henv.
  by destruct (scan_ports W _ st) as [[[p|]|e|] st'].
Qed.

End Outcomes.

(** X1.  With [PORT] unset and [max_attempts] zero or negative the range
    is empty: [find_free_port] probes nothing and raises the [OSError]
    at once. *)
Theorem empty_range_is_exhausted
    (W : world) (start_port max_attempts : Z) (st : state) :
  environ W !! "PORT" = None ->
  max_attempts <= 0 ->
  find_free_port W start_port max_attempts st =
    (Raise (Py.OSError (exhausted_message start_port max_attempts)), st).
Proof.
  intros Henv Hmax. rewrite find_free_port_scan by done.
  rewrite seqZ_nil by done. reflexivity.
Qed.

Lemma empty_range_at_9000 :
  find_free_port Examples.dev_box 9000 0 (initial Examples.dev_box) =
    (Raise (Py.OSError "Could not find a free port in range 9000-9000"),
     initial Examples.dev_box).
Proof.
  apply (empty_range_is_exhausted Examples.dev_box 9000 0); [reflexivity|lia].
Defined.

(** X2.  With [PORT] unset, a port that [find_free_port] returns is a
    candidate of the range, a valid port number on which the bind was not
    refused, and every candidate below it is a valid port number that
    refused the bind; the probes are the candidates up to it, in order. *)
Theorem returned_port_is_first_free
    (W : world) (start_port max_attempts p : Z) (st st' : state) :
  environ W !! "PORT" = None ->
  find_free_port W start_port max_attempts st = (Return p, st') ->
  start_port <= p < start_port + max_attempts /\
  in_range p /\
  bind_refused W "0.0.0.0" p = false /\
  (forall q, start_port <= q < p -> taken W q) /\
  st' = after st (probes (seqZ start_port (p - start_port + 1))).
Proof.
  intros Henv. rewrite find_free_port_scan by done.
  destruct (scan_ports_end W (seqZ start_port max_attempts) st)
    as [l1 p' l2 E Hl1 Hp Hfree| Hall |l1 p' l2 E Hl1 Hp]; [|discriminate..].
  intros [= -> <-].
  apply seqZ_split in E as [Hin ->].
  split; [exact Hin|]. split; [exact Hp|]. split; [exact Hfree|]. split.
  - intros q Hq. rewrite Forall_seqZ in Hl1. apply Hl1. lia.
  - by rewrite probes_upto by lia.
Qed.

Lemma dev_box_first_free :
  8000 <= 8003 < 8000 + 10 /\
  in_range 8003 /\
  bind_refused Examples.dev_box "0.0.0.0" 8003 = false /\
  (forall q, 8000 <= q < 8003 -> taken Examples.dev_box q) /\
  after (initial Examples.dev_box) (probes (seqZ 8000 4)) =
    after (initial Examples.dev_box) (probes (seqZ 8000 (8003 - 8000 + 1))).
Proof.
  apply (returned_port_is_first_free Examples.dev_box 8000 10 8003
           (initial Examples.dev_box)).
  - reflexivity.
  - vm_compute. reflexivity.
Defined.

(** X3.  With [PORT] unset, [find_free_port] raises [OSError] exactly
    when every candidate of the range is a valid port number that refuses
    the bind; the message then names [start_port] and
    [start_port + max_attempts], and every candidate has been probed. *)
Theorem exhausted_iff_all_taken
    (W : world) (start_port max_attempts : Z) (st : state) :
  environ W !! "PORT" = None ->
  ((exists msg st',
       find_free_port W start_port max_attempts st = (Raise (Py.OSError msg), st'))
   <-> (forall q, start_port <= q < start_port + max_attempts -> taken W q)) /\
  (forall msg st',
      find_free_port W start_port max_attempts st = (Raise (Py.OSError msg), st') ->
      msg = exhausted_message start_port max_attempts /\
      st' = after st (probes (seqZ start_port max_attempts))).
Proof.
  intros Henv. rewrite find_free_port_scan by done.
  destruct (scan_ports_end W (seqZ start_port max_attempts) st)
    as [l1 p l2 E Hl1 Hp Hfree| Hall |l1 p l2 E Hl1 Hp].
  - split; [split|]; [intros (? & ? & [=])| |intros ? ? [=]].
    intros Hall. apply seqZ_split in E as [Hin _].
    destruct (Hall p Hin) as [_ Ht]. congruence.
  - split; [split|].
    + intros _. by apply Forall_seqZ.
    + intros _. by eexists _, _.
    + by intros ? ? [= <- <-].
  - split; [split|]; [intros (? & ? & [=])| |intros ? ? [=]].
    intros Hall. apply seqZ_split in E as [Hin _].
    by destruct (Hall p Hin) as [? _].
Qed.

Lemma all_taken_is_exhausted :
  (exists msg st',
      find_free_port Examples.all_taken 8000 10 (initial Examples.all_taken) =
        (Raise (Py.OSError msg), st')) <->
  (forall q, 8000 <= q < 8000 + 10 -> taken Examples.all_taken q).
Proof.
  apply (exhausted_iff_all_taken Examples.all_taken 8000 10
           (initial Examples.all_taken)).
  reflexivity.
Defined.

(** X4.  With [PORT] unset, when the candidates below a candidate [q]
    all refuse the bind and [q] is not a valid port number, the bind on
    [q] raises [OverflowError]; the loop catches [OSError] only, so
    [find_free_port] ends with that [OverflowError] and tries no further
    candidate. *)
Theorem scan_past_port_range_overflows
    (W : world) (start_port max_attempts q : Z) (st : state) :
  environ W !! "PORT" = None ->
  start_port <= q < start_port + max_attempts ->
  ~ in_range q ->
  (forall r, start_port <= r < q -> taken W r) ->
  find_free_port W start_port max_attempts st =
    (Raise (Py.OverflowError "bind(): port must be 0-65535."),
     after st (probes (seqZ start_port (q - start_port + 1)))).
Proof.
  intros Henv Hq Hout Hbelow. rewrite find_free_port_scan by done.
  destruct (scan_ports_end W (seqZ start_port max_attempts) st)
    as [l1 p l2 E Hl1 Hp Hfree| Hall |l1 p l2 E Hl1 Hp].
  - exfalso. apply seqZ_split in E as [Hin ->].
    rewrite Forall_seqZ in Hl1.
    destruct (Z.lt_trichotomy p q) as [Hlt|[->|Hgt]].
    + destruct (Hbelow p) as [_ Ht]; [lia|congruence].
    + done.
    + destruct (Hl1 q) as [? _]; [lia|done].
  - exfalso. rewrite Forall_seqZ in Hall. by destruct (Hall q Hq) as [? _].
  - apply seqZ_split in E as [Hin ->].
    rewrite Forall_seqZ in Hl1.
    destruct (Z.lt_trichotomy p q) as [Hlt|[->|Hgt]].
    + destruct (Hbelow p) as [? _]; [lia|done].
    + by rewrite probes_upto by lia.
    + destruct (Hl1 q) as [? _]; [lia|done].
Qed.

Lemma scan_from_65530_overflows :
  find_free_port Examples.all_taken 65530 10 (initial Examples.all_taken) =
    (Raise (Py.OverflowError "bind(): port must be 0-65535."),
     after (initial Examples.all_taken)
       (probes (seqZ 65530 (65536 - 65530 + 1)))).
Proof.
  apply (scan_past_port_range_overflows Examples.all_taken 65530 10 65536).
  - reflexivity.
  - lia.
  - unfold in_range. lia.
  - intros r Hr. split; [unfold in_range; lia|reflexivity].
Defined.

Section Host.
Variables W W' : world.
Hypothesis same_wildcard :
  forall q, bind_refused W' "0.0.0.0" q = bind_refused W "0.0.0.0" q.

Lemma probe_bind_same q : probe_bind W' "0.0.0.0" q = probe_bind W "0.0.0.0" q.
Proof. unfold probe_bind. by rewrite same_wildcard. Qed.

Lemma scan_ports_same l : forall st, scan_ports W' l st = scan_ports W l st.
Proof.
  induction l as [|q rest IH]; intros st; [done|].
  cbn [scan_ports]. unfold try_except, try_excepts.
  rewrite probe_bind_same.
  destruct (bind _ _ st) as [[?|e|] st1]; [reflexivity| |reflexivity].
  cbn [handle_exception]. destruct (Py.is_OSError e); [apply IH|reflexivity].
Qed.

Lemma find_free_port_same start_port max_attempts st :
  environ W' !! "PORT" = environ W !! "PORT" ->
  find_free_port W' start_port max_attempts st =
    find_free_port W start_port max_attempts st.
Proof.
  intros Henv. unfold find_free_port. rewrite Henv.
  destruct (environ W !! "PORT"); [done|].
  unfold bind. by rewrite scan_ports_same.
Qed.

End Host.

(** C10.  With [PORT] unset, [find_free_port] tests the candidates one
    after the other, from [start_port] on, each by a throwaway bind on
    [0.0.0.0], and stops at the first one that is not taken there.  So
    it ends in one of three ways: it returns a candidate [p] on which
    that bind was not refused, having probed the candidates up to [p];
    or every candidate refused the bind, all of them have been probed
    and the [OSError] is raised; or the scan came to a candidate that is
    no port number, and the bind on it raised [OverflowError].  [HOST]
    has no part in this: surroundings that agree on [PORT] and on which
    binds on [0.0.0.0] are refused give the same result and the same
    probes, whatever [HOST] is set to and whatever can be bound on the
    address it names. *)
Theorem scan_ignores_HOST
    (W : world) (start_port max_attempts : Z) (st : state) :
  environ W !! "PORT" = None ->
  ((exists p,
       start_port <= p < start_port + max_attempts /\
       (forall q, start_port <= q < p -> taken W q) /\
       in_range p /\ bind_refused W "0.0.0.0" p = false /\
       find_free_port W start_port max_attempts st =
         (Return p, after st (probes (seqZ start_port (p - start_port + 1)))))
   \/ ((forall q, start_port <= q < start_port + max_attempts -> taken W q) /\
       find_free_port W start_port max_attempts st =
         (Raise (Py.OSError (exhausted_message start_port max_attempts)),
          after st (probes (seqZ start_port max_attempts))))
   \/ (exists p,
       start_port <= p < start_port + max_attempts /\
       (forall q, start_port <= q < p -> taken W q) /\
       ~ in_range p /\
       find_free_port W start_port max_attempts st =
         (Raise (Py.OverflowError "bind(): port must be 0-65535."),
          after st (probes (seqZ start_port (p - start_port + 1)))))) /\
  (forall W' : world,
      environ W' !! "PORT" = None ->
      (forall q, bind_refused W' "0.0.0.0" q = bind_refused W "0.0.0.0" q) ->
      find_free_port W' start_port max_attempts st =
        find_free_port W start_port max_attempts st) /\
  (forall host,
      find_free_port (with_environ (<["HOST" := host]> (environ W)) W)
          start_port max_attempts st =
        find_free_port W start_port max_attempts st) /\
  find_free_port (with_environ (delete "HOST" (environ W)) W)
      start_port max_attempts st =
    find_free_port W start_port max_attempts st.
Proof.
  intros Henv. split; [|split; [|split]].
  - rewrite find_free_port_scan by done.
    destruct (scan_ports_end W (seqZ start_port max_attempts) st)
      as [l1 p l2 E Hl1 Hp Hfree| Hall |l1 p l2 E Hl1 Hp].
    + left. exists p. apply seqZ_split in E as [Hin ->].
      rewrite Forall_seqZ in Hl1. rewrite probes_upto by lia.
      split; [exact Hin|]. split; [|done].
      intros q Hq. apply Hl1. lia.
    + right. left. split; [|reflexivity]. by apply Forall_seqZ.
    + right. right. exists p. apply seqZ_split in E as [Hin ->].
      rewrite Forall_seqZ in Hl1. rewrite probes_upto by lia.
      split; [exact Hin|]. split; [|done].
      intros q Hq. apply Hl1. lia.
  - intros W' Henv' Hsame. apply find_free_port_same; [done|congruence].
  - intros host. apply find_free_port_same; [done|].
    cbn [environ with_environ]. by rewrite lookup_insert_ne.
  - apply find_free_port_same; [done|].
    cbn [environ with_environ]. by rewrite lookup_delete_ne.
Qed.

Lemma dev_box_scan_ignores_HOST :
  environ Examples.dev_box !! "PORT" = None /\
  ((exists p,
       8000 <= p < 8000 + 10 /\
       (forall q, 8000 <= q < p -> taken Examples.dev_box q) /\
       in_range p /\ bind_refused Examples.dev_box "0.0.0.0" p = false /\
       find_free_port Examples.dev_box 8000 10 (initial Examples.dev_box) =
         (Return p,
          after (initial Examples.dev_box) (probes (seqZ 8000 (p - 8000 + 1)))))
   \/ ((forall q, 8000 <= q < 8000 + 10 -> taken Examples.dev_box q) /\
       find_free_port Examples.dev_box 8000 10 (initial Examples.dev_box) =
         (Raise (Py.OSError (exhausted_message 8000 10)),
          after (initial Examples.dev_box) (probes (seqZ 8000 10))))
   \/ (exists p,
       8000 <= p < 8000 + 10 /\
       (forall q, 8000 <= q < p -> taken Examples.dev_box q) /\
       ~ in_range p /\
       find_free_port Examples.dev_box 8000 10 (initial Examples.dev_box) =
         (Raise (Py.OverflowError "bind(): port must be 0-65535."),
          after (initial Examples.dev_box)
            (probes (seqZ 8000 (p - 8000 + 1)))))) /\
  (forall W' : world,
      environ W' !! "PORT" = None ->
      (forall q, bind_refused W' "0.0.0.0" q =
                 bind_refused Examples.dev_box "0.0.0.0" q) ->
      find_free_port W' 8000 10 (initial Examples.dev_box) =
        find_free_port Examples.dev_box 8000 10 (initial Examples.dev_box)) /\
  (forall host,
      find_free_port
          (with_environ (<["HOST" := host]> (environ Examples.dev_box))
             Examples.dev_box)
          8000 10 (initial Examples.dev_box) =
        find_free_port Examples.dev_box 8000 10 (initial Examples.dev_box)) /\
  find_free_port
      (with_environ (delete "HOST" (environ Examples.dev_box)) Examples.dev_box)
      8000 10 (initial Examples.dev_box) =
    find_free_port Examples.dev_box 8000 10 (initial Examples.dev_box).
Proof.
  split; [reflexivity|].
  apply (scan_ignores_HOST Examples.dev_box 8000 10 (initial Examples.dev_box)).
  reflexivity.
Defined.

End PortScan.

(** ** More on the file check *)

Module FileCheck.
Import OS Main MainFacts.

Ltac looks :=
  repeat first
    [ apply Forall_nil_2
    | apply Forall_cons_2;
      [first [ by left
             | right; eexists; split; [|reflexivity];
               repeat first [ apply list_elem_of_here | apply list_elem_of_further ] ]
      |] ].

Lemma check_files_looks (W : world) (st : state) :
  exists evs,
    check_files W st =
      (Return (bool_decide (joinpath (cwd st) "index.html" ∈ files W)),
       after st evs) /\
    Forall (looks_in (cwd st)) evs.
Proof.
  unfold check_files, bind, getcwd, path_exists, emit, print, ret. cbn.
  case_bool_decide; cbn.
  - unfold bind, emit, ret. cbn.
    repeat (case_bool_decide; cbn);
      (eexists; split;
       [unfold after; cbn; rewrite <- ?app_assoc; reflexivity|looks]).
  - eexists; split;
      [unfold after; cbn; rewrite <- ?app_assoc; reflexivity|looks].
Qed.

(** X5.  [check_files] returns [True] exactly when [index.html] exists
    in the working directory, whatever logo files there are; it leaves
    the working directory as it is and does nothing but print and look
    for [index.html] and the four logo names in that directory. *)
Theorem check_files_iff_index (W : world) (st : state) :
  exists evs,
    check_files W st =
      (Return (bool_decide (joinpath (cwd st) "index.html" ∈ files W)),
       after st evs) /\
    Forall (looks_in (cwd st)) evs.
Proof.
  unfold check_files, bind, getcwd, path_exists, emit, print, ret. cbn.
  case_bool_decide; cbn.
  - unfold bind, emit, ret. cbn.
    repeat (case_bool_decide; cbn);
      (eexists; split;
       [unfold after; cbn; rewrite <- ?app_assoc; reflexivity|looks]).
  - eexists; split;
      [unfold after; cbn; rewrite <- ?app_assoc; reflexivity|looks].
Qed.

(** X6.  With [index.html] present, [check_files] succeeds with or
    without a logo.  When none of [logo.png], [logo.svg], [logo.jpg],
    [logo.jpeg] exists it has looked for all five files, in this order,
    and then printed the two lines of the warning; when one of them exists
    it prints nothing. *)
Theorem logo_warning_iff_no_logo (W : world) (st : state) :
  joinpath (cwd st) "index.html" ∈ files W ->
  exists evs,
    check_files W st = (Return true, after st evs) /\
    ((forall logo, logo ∈ logo_files -> joinpath (cwd st) logo ∉ files W) ->
     evs = (Exists <$> (joinpath (cwd st) <$> "index.html" :: logo_files))
           ++ logo_warning) /\
    ((exists logo, logo ∈ logo_files /\ joinpath (cwd st) logo ∈ files W) ->
     Forall (fun e => ~ is_Print e) evs).
Proof.
  intros Hin. unfold check_files, bind, getcwd, path_exists, emit, print, ret.
  cbn. rewrite (bool_decide_eq_true_2 _ Hin). cbn.
  unfold bind, emit, ret. cbn.
  assert (Hcase : forall logo, logo ∈ logo_files ->
            logo = "logo.png" \/ logo = "logo.svg" \/
            logo = "logo.jpg" \/ logo = "logo.jpeg").
  { intros logo Hl. unfold logo_files in Hl.
    repeat (apply elem_of_cons in Hl as [->|Hl]; [tauto|]).
    by apply elem_of_nil in Hl. }
  assert (Hmem : forall logo,
            logo = "logo.png" \/ logo = "logo.svg" \/
            logo = "logo.jpg" \/ logo = "logo.jpeg" -> logo ∈ logo_files).
  { intros logo [->|[->|[->| ->]]]; unfold logo_files;
      repeat first [ apply list_elem_of_here | apply list_elem_of_further ]. }
  repeat (case_bool_decide; cbn);
    (eexists; split;
     [unfold after; cbn; rewrite <- ?app_assoc; reflexivity|]);
    (split;
     [ intros Hnone;
       first [ reflexivity
             | exfalso;
               first [ eapply (Hnone "logo.png"); [apply Hmem; tauto|eassumption]
                     | eapply (Hnone "logo.svg"); [apply Hmem; tauto|eassumption]
                     | eapply (Hnone "logo.jpg"); [apply Hmem; tauto|eassumption]
                     | eapply (Hnone "logo.jpeg"); [apply Hmem; tauto|eassumption] ] ]
     | intros (logo & Hl & Hfile);
       first [ by repeat (apply Forall_cons_2; [by intros []|])
             | exfalso; apply Hcase in Hl as [->|[->|[->| ->]]]; done ] ]).
Qed.

Lemma sample_root_has_index :
  joinpath (cwd (mkState ["srv"; "site"] [])) "index.html" ∈ files Examples.dev_box.
Proof. refine (bool_decide_unpack _ _). vm_compute. exact I. Defined.

Lemma sample_root_passes_quietly :
  exists evs,
    check_files Examples.dev_box (mkState ["srv"; "site"] []) =
      (Return true, after (mkState ["srv"; "site"] []) evs) /\
    ((forall logo, logo ∈ logo_files ->
        joinpath (cwd (mkState ["srv"; "site"] [])) logo ∉ files Examples.dev_box) ->
     evs = (Exists <$> (joinpath (cwd (mkState ["srv"; "site"] []))
                          <$> "index.html" :: logo_files))
           ++ logo_warning) /\
    ((exists logo, logo ∈ logo_files /\
        joinpath (cwd (mkState ["srv"; "site"] [])) logo ∈ files Examples.dev_box) ->
     Forall (fun e => ~ is_Print e) evs).
Proof.
  exact (logo_warning_iff_no_logo Examples.dev_box (mkState ["srv"; "site"] [])
           sample_root_has_index).
Defined.

End FileCheck.

(** ** More on start-up and shutdown *)

Module Startup.
Import OS Main MainFacts.
Local Open Scope Z_scope.

Section Traces.
Context {A B : Type}.
Variable P : event -> Prop.

Lemma emits_at_same (m : M A) st :
  trace (m st).2 = trace st -> emits_at P m st.
Proof. intros E. exists []. rewrite E, app_nil_r. by split. Qed.

Lemma emits_at_bind (m : M A) (k : A -> M B) st :
  emits_at P m st ->
  (forall a st', m st = (Return a, st') -> emits_at P (k a) st') ->
  emits_at P (bind m k) st.
Proof.
  intros (evs & E & F) Hk. unfold bind, emits_at.
  destruct (m st) as [[a|e|] st'] eqn:Em; cbn in E; [|by exists evs..].
  destruct (Hk a st' eq_refl) as (evs' & E' & F').
  exists (evs ++ evs'). split; [|by apply Forall_app].
  by rewrite E', E, app_assoc.
Qed.

Lemma emits_at_try_excepts (m : M A) clauses st :
  emits_at P m st ->
  (forall e st', m st = (Raise e, st') -> emits_at P (handle_exception clauses e) st') ->
  emits_at P (try_excepts m clauses) st.
Proof.
  intros (evs & E & F) Hh. unfold try_excepts, emits_at.
  destruct (m st) as [[a|e|] st'] eqn:Em; cbn in E; [by exists evs| |by exists evs].
  destruct (Hh e st' eq_refl) as (evs' & E' & F').
  exists (evs ++ evs'). split; [|by apply Forall_app].
  by rewrite E', E, app_assoc.
Qed.

Lemma emits_at_try_finally (m : M A) (f : M unit) st :
  emits_at P m st -> emits P f -> emits_at P (try_finally m f) st.
Proof.
  intros (evs & E & F) Hf. unfold try_finally, emits_at.
  destruct (m st) as [[a|e|] st'] eqn:Em; cbn in E; [| |by exists evs].
  - destruct (Hf st') as (evs' & E' & F').
    exists (evs ++ evs'). split; [|by apply Forall_app].
    unfold bind. destruct (f st') as [[[]|?|] st'']; cbn in *;
      by rewrite E', E, app_assoc.
  - destruct (Hf st') as (evs' & E' & F').
    exists (evs ++ evs'). split; [|by apply Forall_app].
    unfold bind. destruct (f st') as [[[]|?|] st'']; cbn in *;
      by rewrite E', E, app_assoc.
Qed.

End Traces.

Lemma emits_at_emit P e st : P e -> emits_at P (emit e) st.
Proof. intros He. exists [e]. split; [done|by constructor]. Qed.

Lemma emits_at_weaken {A} (P Q : event -> Prop) (m : M A) st :
  (forall e, P e -> Q e) -> emits_at P m st -> emits_at Q m st.
Proof.
  intros HPQ (evs & E & F). exists evs. split; [done|].
  eapply Forall_impl; eauto.
Qed.

(** One step of a straight-line block: the first command emits, the
    rest is still to do. *)
Ltac emit_step :=
  lazymatch goal with
  | |- emits_at _ (bind _ _) _ => apply emits_at_bind; [|intros ? ? _]
  | |- emits_at _ (print _) _ => apply emits_at_emit
  | |- emits_at _ (emit _) _ => apply emits_at_emit
  | |- emits_at _ (ret _) _ => by apply emits_at_same
  | |- emits_at _ (raise _) _ => by apply emits_at_same
  | |- emits_at _ diverge _ => by apply emits_at_same
  | |- emits_at _ getcwd _ => by apply emits_at_same
  | |- emits_at _ (when ?b _) _ => destruct b; cbn [when]
  | |- emits_at _ (try_except _ _ _) _ =>
      unfold try_except; apply emits_at_try_excepts;
      [|intros ? ? _; cbn [handle_exception]]
  | |- emits_at _ (if ?b then _ else _) _ => destruct b
  | |- emits_at _ (match ?o with Some _ => _ | None => _ end) _ => destruct o
  | |- emits_at _ (fun st => (Raise _, st)) _ => by apply emits_at_same
  end.

Section Confined.
Variable W : world.

(** The handlers of [start_server] print one or two lines. *)
Lemma start_server_caught PORT HOST st e st' :
  start_server_body W PORT HOST st = (Raise e, st') ->
  start_server W PORT HOST st =
    (Return tt, after st' (farewell e)).
Proof.
  intros E. unfold start_server, try_excepts. rewrite E. cbn [handle_exception].
  destruct e; cbn; unfold bind, print, emit, after; cbn;
    rewrite <- ?app_assoc; reflexivity.
Qed.

Lemma start_server_passed PORT HOST st r st' :
  start_server_body W PORT HOST st = (r, st') ->
  (forall e, r <> Raise e) ->
  start_server W PORT HOST st = (r, st').
Proof.
  intros E Hr. unfold start_server, try_excepts. rewrite E.
  destruct r as [a|e|]; [done| |done]. by destruct (Hr e).
Qed.

(** X7.  [start_server] lets no exception out, [KeyboardInterrupt]
    included: it returns, unless the serve loop never ends. *)
Theorem start_server_never_raises (PORT : Z) (HOST : string) (st : state) :
  (start_server W PORT HOST st).1 = Return tt \/
  ((start_server W PORT HOST st).1 = Diverge /\ serve_forever_end W = Never).
Proof.
  destruct (serve_forever_end W) eqn:Hend.
  - left. destruct (returns_start_server W PORT HOST) with (st := st)
      as ([] & st' & ->); [by rewrite Hend|done].
  - left. destruct (returns_start_server W PORT HOST) with (st := st)
      as ([] & st' & ->); [by rewrite Hend|done].
  - destruct (start_server_body W PORT HOST st) as [[[]|e|] st'] eqn:E.
    + left. by rewrite (start_server_passed _ _ _ _ _ E).
    + left. by rewrite (start_server_caught _ _ _ _ _ E).
    + right. by rewrite (start_server_passed _ _ _ _ _ E).
Qed.

Lemma find_free_port_probes start_port max_attempts :
  emits (fun e => exists q, e = ProbeBind "0.0.0.0" q /\
                            start_port <= q < start_port + max_attempts)
        (find_free_port W start_port max_attempts).
Proof.
  intros st. destruct (environ W !! "PORT") as [s|] eqn:Henv.
  - apply emits_at_same. unfold find_free_port. rewrite Henv.
    by destruct (Py.int s).
  - unfold emits_at. rewrite PortScan.find_free_port_scan by done.
    assert (Hsub : forall l, (forall q, q ∈ l -> q ∈ seqZ start_port max_attempts) ->
      Forall (fun e => exists q, e = ProbeBind "0.0.0.0" q /\
                                 start_port <= q < start_port + max_attempts)
             (probes l)).
    { intros l Hl. unfold probes. apply Forall_fmap, Forall_forall.
      intros q Hq. exists q. split; [done|]. by apply elem_of_seqZ, Hl. }
    destruct (PortScan.scan_ports_end W (seqZ start_port max_attempts) st)
      as [l1 p l2 E Hl1 Hp Hfree| Hall |l1 p l2 E Hl1 Hp]; cbn.
    + eexists. split; [reflexivity|]. apply Hsub. intros q Hq.
      rewrite E. apply elem_of_app in Hq as [Hq|Hq%list_elem_of_singleton].
      * apply elem_of_app. by left.
      * subst. apply elem_of_app. right. by left.
    + eexists. split; [reflexivity|]. by apply Hsub.
    + eexists. split; [reflexivity|]. apply Hsub. intros q Hq.
      rewrite E. apply elem_of_app in Hq as [Hq|Hq%list_elem_of_singleton].
      * apply elem_of_app. by left.
      * subst. apply elem_of_app. right. by left.
Qed.

Lemma serve_body_emits (P : event -> Prop) HOST port :
  (forall s, P (Print s)) ->
  P (OpenBrowser (server_url HOST port)) ->
  P ServeForever ->
  emits P (serve_body W HOST port).
Proof.
  intros Hprint Hopen Hserve st. unfold serve_body. cbv zeta.
  unfold webbrowser_open, serve_forever.
  repeat emit_step; try done.
  destruct (serve_forever_end W); by apply emits_at_same.
Qed.

Lemma looks_in_allowed PORT HOST e :
  looks_in (script_dir W) e -> allowed W PORT HOST e.
Proof.
  intros H. destruct e; try done;
    destruct H as [[]|(name & _ & [=])].
Qed.

Lemma start_server_body_emits PORT HOST :
  emits (allowed W PORT HOST) (start_server_body W PORT HOST).
Proof.
  intros st. unfold start_server_body. apply emits_at_bind.
  { exists [Chdir (script_dir W)]. split; [done|by repeat constructor]. }
  intros [] st1 [= <-].
  apply emits_at_bind.
  { destruct (FileCheck.check_files_looks W
                (mkState (script_dir W) (trace st ++ [Chdir (script_dir W)])))
      as (evs & E & F).
    exists evs. rewrite E. split; [done|].
    eapply Forall_impl; [exact F|]. apply looks_in_allowed. }
  intros ok st2 _. destruct ok; cbn [negb]; [|by apply emits_at_same].
  apply emits_at_bind.
  { emit_step.
    - apply emits_at_bind; [|intros ? ? _; by apply emits_at_same].
      eapply emits_at_weaken; [|apply find_free_port_probes].
      by intros e (q & -> & Hq).
    - repeat emit_step. }
  intros [e|port] st3 _; [by apply emits_at_emit|].
  apply emits_at_bind.
  { unfold tcp_server. repeat emit_step; done. }
  intros [] st4 _. apply emits_at_try_finally.
  + apply serve_body_emits; [done|by exists port|done].
  + intros st5. by apply emits_at_emit.
Qed.

Lemma start_server_emits PORT HOST :
  emits (allowed W PORT HOST) (start_server W PORT HOST).
Proof.
  intros st. unfold start_server. apply emits_at_try_excepts.
  - apply start_server_body_emits.
  - intros e st' _. cbn [handle_exception].
    destruct (Py.is_KeyboardInterrupt e); [by apply emits_at_emit|].
    destruct (Py.is_Exception e); [|by apply emits_at_same].
    repeat emit_step; done.
Qed.

(** [find_free_port] behaves the same from every state. *)
Lemma scan_ports_anywhere l :
  exists r evs, forall st, scan_ports W l st = (r, after st evs).
Proof.
  induction l as [|q rest (r & evs & IH)].
  - exists (Return None), []. intros st. cbn. unfold ret, after.
    rewrite app_nil_r. by destruct st.
  - destruct (PortScan.in_range_dec q) as [Hr|Hr].
    + destruct (bind_refused W "0.0.0.0" q) eqn:Hq.
      * exists r, (ProbeBind "0.0.0.0" q :: evs). intros st.
        rewrite scan_ports_taken, IH by done. by rewrite after_after.
      * exists (Return (Some q)), [ProbeBind "0.0.0.0" q]. intros st.
        by rewrite scan_ports_free.
    + exists (Raise (Py.OverflowError "bind(): port must be 0-65535.")),
        [ProbeBind "0.0.0.0" q].
      intros st. cbn [scan_ports].
      erewrite (try_except_passed _ _ _ _
                  (Py.OverflowError "bind(): port must be 0-65535.")
                  (after st [ProbeBind "0.0.0.0" q]));
        [reflexivity| |reflexivity].
      erewrite bind_raise by (by apply PortScan.probe_bind_out_of_range).
      reflexivity.
Qed.

Lemma find_free_port_anywhere start_port max_attempts :
  exists r evs,
    (forall st, find_free_port W start_port max_attempts st = (r, after st evs)) /\
    Forall preparation evs.
Proof.
  destruct (environ W !! "PORT") as [s|] eqn:Henv.
  - exists (match Py.int s with inl e => Raise e | inr v => Return v end), [].
    split; [|constructor]. intros st. unfold find_free_port. rewrite Henv.
    unfold after. rewrite app_nil_r. destruct (Py.int s), st; reflexivity.
  - destruct (scan_ports_anywhere (seqZ start_port max_attempts))
      as (r & evs & Hscan).
    destruct (scan_ports_probes W (seqZ start_port max_attempts)
                (mkState [] [])) as (evs' & E & F).
    rewrite Hscan in E. cbn in E. injection E as <-.
    exists (match r with
            | Return (Some p) => Return p
            | Return None =>
                Raise (Py.OSError (exhausted_message start_port max_attempts))
            | Raise e => Raise e
            | Diverge => Diverge
            end), evs.
    split.
    + intros st. rewrite PortScan.find_free_port_scan by done.
      rewrite Hscan. destruct r as [[p|]|e|]; reflexivity.
    + eapply Forall_impl; [exact F|]. by intros e [p ->].
Qed.

(** With the index document there and a port resolved, [start_server]
    comes to build the server on that port. *)
Lemma startup_reaches_listen PORT HOST port st st0 :
  joinpath (script_dir W) "index.html" ∈ files W ->
  (find_free_port W PORT 10 st0).1 = Return port ->
  exists evs,
    Forall preparation evs /\
    start_server_body W PORT HOST st =
      bind (tcp_server W HOST port)
           (fun _ => try_finally (serve_body W HOST port) (emit ServerClose))
           (mkState (script_dir W) (trace st ++ evs)).
Proof.
  intros Hindex Hport.
  set (st1 := mkState (script_dir W) (trace st ++ [Chdir (script_dir W)])).
  destruct (FileCheck.check_files_looks W st1) as (evs1 & Hcheck & F1).
  cbn [cwd st1] in Hcheck. rewrite (bool_decide_eq_true_2 _ Hindex) in Hcheck.
  destruct (find_free_port_anywhere PORT 10) as (r & evs2 & Hfind & F2).
  rewrite Hfind in Hport. cbn in Hport. subst r.
  exists ([Chdir (script_dir W)] ++ evs1 ++ evs2). split.
  - apply Forall_app. split; [by repeat constructor|].
    apply Forall_app. split; [|done].
    eapply Forall_impl; [exact F1|].
    intros e [He|(name & _ & ->)]; [by destruct e|done].
  - unfold start_server_body.
    unfold bind at 1. unfold chdir at 1. fold st1.
    erewrite bind_return by exact Hcheck. cbn [negb].
    erewrite bind_return.
    2:{ apply try_except_return. erewrite bind_return by apply Hfind.
        reflexivity. }
    cbn beta iota. do 2 f_equal. unfold after, st1. cbn.
    f_equal. by rewrite <- !app_assoc.
Qed.

Ltac ends_with :=
  repeat first [ exact (reflexivity _) | apply suffix_cons_r ].

Lemma runs_ret {A} (a : A) st : runs (ret a) st (Return a) [].
Proof. unfold runs, ret, after. rewrite app_nil_r. by destruct st. Qed.

Lemma runs_emit e st : runs (emit e) st (Return tt) [e].
Proof. reflexivity. Qed.

Lemma runs_getcwd st : runs getcwd st (Return (cwd st)) [].
Proof. unfold runs, getcwd, after. rewrite app_nil_r. by destruct st. Qed.

Lemma runs_bind {A B} (m : M A) (k : A -> M B) st a L1 r L2 :
  runs m st (Return a) L1 -> runs (k a) (after st L1) r L2 ->
  runs (bind m k) st r (L1 ++ L2).
Proof.
  unfold runs. intros E1 E2. rewrite (bind_return _ _ _ _ _ E1), E2.
  by rewrite after_after.
Qed.

Lemma runs_bind_raise {A B} (m : M A) (k : A -> M B) st e L :
  runs m st (Raise e) L -> runs (bind m k) st (Raise e) L.
Proof. unfold runs. intros E. by rewrite (bind_raise _ _ _ _ _ E). Qed.

Lemma runs_try_except_return {A} (m : M A) class h st a L :
  runs m st (Return a) L -> runs (try_except m class h) st (Return a) L.
Proof. unfold runs. intros E. by rewrite (try_except_return _ _ _ _ _ _ E). Qed.

Lemma runs_try_except_caught {A} (m : M A) class h st e L1 r L2 :
  runs m st (Raise e) L1 -> class e = true ->
  runs (h e) (after st L1) r L2 ->
  runs (try_except m class h) st r (L1 ++ L2).
Proof.
  unfold runs. intros E1 Hc E2.
  rewrite (try_except_caught _ _ _ _ _ _ E1 Hc), E2. by rewrite after_after.
Qed.

Lemma runs_serve_forever st :
  runs (serve_forever W) st (serve_outcome W) [ServeForever].
Proof.
  unfold runs, serve_forever, serve_outcome, bind, emit. cbn.
  by destruct (serve_forever_end W).
Qed.

Lemma runs_webbrowser_open url st :
  runs (webbrowser_open W url) st
    (match browser_error W with Some e => Raise e | None => Return tt end)
    [OpenBrowser url].
Proof.
  unfold runs, webbrowser_open, bind, emit. cbn.
  by destruct (browser_error W).
Qed.

Ltac run_step :=
  lazymatch goal with
  | |- runs (bind _ _) _ _ _ => eapply runs_bind
  | |- runs (print _) _ _ _ => apply runs_emit
  | |- runs (emit _) _ _ _ => apply runs_emit
  | |- runs (ret _) _ _ _ => apply runs_ret
  | |- runs getcwd _ _ _ => apply runs_getcwd
  | |- runs (serve_forever _) _ _ _ => apply runs_serve_forever
  end.

(** The block under [with TCPServer(...)], run to the serve loop. *)
Lemma serve_body_run HOST port st :
  browser_is_harmless W ->
  exists L,
    runs (serve_body W HOST port) st (serve_outcome W) L /\
    last L = Some ServeForever /\
    Forall (fun e => is_Print e \/ e = OpenBrowser (server_url HOST port)
                     \/ e = ServeForever) L /\
    (forall e, browser_error W = Some e ->
       [ OpenBrowser (server_url HOST port);
         Print ("Could not open browser automatically: " +:+ Py.str_exn e);
         Print ("Please manually open: " +:+ server_url HOST port);
         Print (Py.nl +:+ "✅ Server started successfully! Waiting for requests...");
         Print "   (Press Ctrl+C to stop)";
         ServeForever ] `suffix_of` L).
Proof.
  intros Hharmless.
  assert (Hopen : exists L0,
    (forall st0,
       runs (try_except
               (bind (webbrowser_open W (server_url HOST port))
                  (fun _ => print "🌐 Opening website in your default browser..."))
               Py.is_Exception
               (fun e =>
                  bind (print ("Could not open browser automatically: " +:+ Py.str_exn e))
                    (fun _ => print ("Please manually open: " +:+ server_url HOST port))))
            st0 (Return tt) (OpenBrowser (server_url HOST port) :: L0)) /\
    Forall is_Print L0 /\
    (forall e, browser_error W = Some e ->
       L0 = [ Print ("Could not open browser automatically: " +:+ Py.str_exn e);
              Print ("Please manually open: " +:+ server_url HOST port) ])).
  { destruct (browser_error W) as [e|] eqn:Hb.
    - eexists. split; [|split].
      + intros st0.
        pose proof (runs_webbrowser_open (server_url HOST port) st0) as Hw.
        rewrite Hb in Hw.
        eapply (runs_try_except_caught _ _ _ _ e [OpenBrowser _]);
          [by apply runs_bind_raise|by apply Hharmless|].
        repeat run_step.
      + by repeat constructor.
      + by intros ? [= <-].
    - eexists. split; [|split].
      + intros st0.
        pose proof (runs_webbrowser_open (server_url HOST port) st0) as Hw.
        rewrite Hb in Hw.
        apply runs_try_except_return.
        eapply (runs_bind _ _ _ tt [OpenBrowser _]); [exact Hw|]. run_step.
      + by repeat constructor.
      + by intros ? [=]. }
  destruct Hopen as (L0 & Hrun & HL0 & Hfail).
  unfold serve_body. cbv zeta. fold (server_url HOST port).
  destruct (bool_decide (HOST = "0.0.0.0")); cbv beta iota delta [when];
    (eexists; split; [repeat first [ run_step | apply Hrun ]|]);
    (split; [rewrite !app_assoc; apply last_snoc|]);
    (split;
     [ repeat first
         [ apply Forall_nil_2
         | apply Forall_cons_2;
           [first [by left|by right; left|by right; right]|]
         | (eapply Forall_impl; [exact HL0|]; by left)
         | apply Forall_app_2 ]
     | intros e He; rewrite (Hfail e He); cbn [app]; ends_with ]).
Qed.



(** X8.  Whatever the surroundings, [start_server] does nothing but:
    print; change to the script's directory; look for [index.html] and
    the four logo names in that directory; probe ports [PORT] to
    [PORT + 9] on the wildcard address; build the server on [HOST]; open
    the browser at [http://HOST:port]; serve; close the server. *)
Theorem start_server_is_confined (PORT : Z) (HOST : string) (st : state) :
  exists evs,
    trace (start_server W PORT HOST st).2 = trace st ++ evs /\
    Forall (allowed W PORT HOST) evs.
Proof.
  unfold start_server. apply emits_at_try_excepts.
  - apply start_server_body_emits.
  - intros e st' _. cbn [handle_exception].
    destruct (Py.is_KeyboardInterrupt e); [by apply emits_at_emit|].
    destruct (Py.is_Exception e); [|by apply emits_at_same].
    repeat emit_step; done.
Qed.

Lemma trace_of_runs {A} (m : M A) st r L :
  runs m st r L -> (m st).1 = r /\ trace (m st).2 = trace st ++ L.
Proof. unfold runs. by intros ->. Qed.

Lemma farewell_is_printed e : Forall is_Print (farewell e).
Proof. unfold farewell. destruct (Py.is_KeyboardInterrupt e); by repeat constructor. Qed.

(** [start_server] once the server could not be built. *)
Lemma start_server_listen_fails PORT HOST port st st0 e :
  joinpath (script_dir W) "index.html" ∈ files W ->
  (find_free_port W PORT 10 st0).1 = Return port ->
  listen_error W HOST port = Some e ->
  exists evs,
    Forall preparation evs /\
    start_server W PORT HOST st =
      (Return tt,
       mkState (script_dir W)
         (trace st ++ evs ++ Listen HOST port :: ServerClose :: farewell e)).
Proof.
  intros Hindex Hport Hlisten.
  destruct (startup_reaches_listen PORT HOST port st st0 Hindex Hport)
    as (evs & Fevs & Ebody).
  exists evs. split; [done|].
  erewrite start_server_caught.
  2:{ rewrite Ebody. apply bind_raise.
      unfold tcp_server. erewrite bind_return by reflexivity.
      rewrite Hlisten. erewrite bind_return by reflexivity. reflexivity. }
  unfold after. cbn. do 2 f_equal. by rewrite <- !app_assoc.
Qed.

(** [start_server] once the server is built: the block under [with]
    runs from the state after the [Listen] event. *)
Lemma start_server_listens PORT HOST port st st0 :
  joinpath (script_dir W) "index.html" ∈ files W ->
  (find_free_port W PORT 10 st0).1 = Return port ->
  listen_error W HOST port = None ->
  exists evs,
    Forall preparation evs /\
    start_server_body W PORT HOST st =
      try_finally (serve_body W HOST port) (emit ServerClose)
        (mkState (script_dir W) (trace st ++ evs ++ [Listen HOST port])).
Proof.
  intros Hindex Hport Hlisten.
  destruct (startup_reaches_listen PORT HOST port st st0 Hindex Hport)
    as (evs & Fevs & Ebody).
  exists evs. split; [done|].
  rewrite Ebody. erewrite bind_return.
  2:{ unfold tcp_server. erewrite bind_return by reflexivity.
      rewrite Hlisten. reflexivity. }
  unfold after. cbn. by rewrite <- !app_assoc.
Qed.

(** X9.  With [index.html] in place and [find_free_port(PORT)] giving
    [port], [start_server] builds the server exactly once, on
    [(HOST, port)]: before that it only prints, changes directory, looks
    for files and probes; after that it never builds another. *)
Theorem listener_uses_resolved_port
    (PORT : Z) (HOST : string) (port : Z) (st st0 : state) :
  joinpath (script_dir W) "index.html" ∈ files W ->
  (find_free_port W PORT 10 st0).1 = Return port ->
  exists evs rest,
    trace (start_server W PORT HOST st).2 =
      trace st ++ evs ++ Listen HOST port :: rest /\
    Forall preparation evs /\
    Forall (fun e => is_Listen e = false) rest.
Proof.
  intros Hindex Hport.
  assert (Hfare : forall e, Forall (fun e => is_Listen e = false) (farewell e)).
  { intros e. eapply Forall_impl; [apply farewell_is_printed|]. by intros []. }
  destruct (listen_error W HOST port) as [e|] eqn:Hlisten.
  - destruct (start_server_listen_fails PORT HOST port st st0 e Hindex Hport Hlisten)
      as (evs & Fevs & ->).
    exists evs, (ServerClose :: farewell e). split; [done|]. split; [done|].
    by constructor.
  - destruct (start_server_listens PORT HOST port st st0 Hindex Hport Hlisten)
      as (evs & Fevs & Ebody).
    set (st3 := mkState (script_dir W) (trace st ++ evs ++ [Listen HOST port])) in *.
    assert (Hblock : emits_at (fun e => is_Listen e = false)
                       (try_finally (serve_body W HOST port) (emit ServerClose)) st3).
    { apply emits_at_try_finally.
      - by apply serve_body_emits.
      - intros st5. by apply emits_at_emit. }
    destruct Hblock as (L & EL & FL). rewrite <- Ebody in EL.
    destruct (start_server_body W PORT HOST st) as [[[]|e|] st4] eqn:E;
      cbn [snd] in EL.
    + rewrite (start_server_passed _ _ _ _ _ E) by done.
      exists evs, L. cbn [snd]. rewrite EL. unfold st3. cbn [trace].
      split; [by rewrite <- !app_assoc|done].
    + rewrite (start_server_caught _ _ _ _ _ E).
      exists evs, (L ++ farewell e). cbn [snd after trace]. rewrite EL.
      unfold st3. cbn [trace].
      split; [by rewrite <- !app_assoc|]. split; [done|].
      apply Forall_app. by split.
    + rewrite (start_server_passed _ _ _ _ _ E) by done.
      exists evs, L. cbn [snd]. rewrite EL. unfold st3. cbn [trace].
      split; [by rewrite <- !app_assoc|done].
Qed.

(** X10.  When the serve loop is reached and ends with an exception
    (Ctrl+C is [KeyboardInterrupt]), the server is closed first, then
    [start_server] prints its last lines, and returns. *)
Theorem serve_loop_end_closes_server
    (PORT : Z) (HOST : string) (port : Z) (st st0 : state) (e : Py.exn) :
  joinpath (script_dir W) "index.html" ∈ files W ->
  (find_free_port W PORT 10 st0).1 = Return port ->
  listen_error W HOST port = None ->
  browser_is_harmless W ->
  serve_outcome W = Raise e ->
  (start_server W PORT HOST st).1 = Return tt /\
  ([ServeForever; ServerClose] ++ farewell e)
    `suffix_of` trace (start_server W PORT HOST st).2.
Proof.
  intros Hindex Hport Hlisten Hbrowser Hserve.
  destruct (start_server_listens PORT HOST port st st0 Hindex Hport Hlisten)
    as (evs & Fevs & Ebody).
  set (st3 := mkState (script_dir W) (trace st ++ evs ++ [Listen HOST port])) in *.
  destruct (serve_body_run HOST port st3 Hbrowser) as (L & Hrun & Hlast & _).
  apply last_Some in Hlast as [L' ->].
  unfold runs in Hrun. rewrite Hserve in Hrun.
  erewrite start_server_caught.
  2:{ rewrite Ebody. unfold try_finally. rewrite Hrun. reflexivity. }
  split; [reflexivity|].
  cbn [snd after trace]. exists (trace st3 ++ L').
  rewrite <- !app_assoc. reflexivity.
Qed.

(** X11.  When the server cannot be built on the resolved port, the
    constructor closes the half-built server and [start_server] prints
    its error message right after that and returns: the browser is not
    opened and the serve loop is not entered. *)
Theorem bind_failure_is_reported
    (PORT : Z) (HOST : string) (port : Z) (st st0 : state) (e : Py.exn) :
  joinpath (script_dir W) "index.html" ∈ files W ->
  (find_free_port W PORT 10 st0).1 = Return port ->
  listen_error W HOST port = Some e ->
  exists evs,
    Forall preparation evs /\
    start_server W PORT HOST st =
      (Return tt,
       mkState (script_dir W)
         (trace st ++ evs ++ Listen HOST port :: ServerClose :: farewell e)).
Proof.
  intros Hindex Hport Hlisten.
  destruct (startup_reaches_listen PORT HOST port st st0 Hindex Hport)
    as (evs & Fevs & Ebody).
  exists evs. split; [done|].
  erewrite start_server_caught.
  2:{ rewrite Ebody. apply bind_raise.
      unfold tcp_server. erewrite bind_return by reflexivity.
      rewrite Hlisten. erewrite bind_return by reflexivity. reflexivity. }
  unfold after. cbn. do 2 f_equal. by rewrite <- !app_assoc.
Qed.

(** X12.  When [webbrowser.open] raises an [Exception], the block under
    [with] prints the two lines that tell so and give the URL, then goes
    on to the serve loop as it would have. *)
Theorem browser_failure_is_not_fatal
    (HOST : string) (port : Z) (st : state) (e : Py.exn) :
  browser_error W = Some e ->
  Py.is_Exception e = true ->
  (serve_body W HOST port st).1 = serve_outcome W /\
  [ OpenBrowser (server_url HOST port);
    Print ("Could not open browser automatically: " +:+ Py.str_exn e);
    Print ("Please manually open: " +:+ server_url HOST port);
    Print (Py.nl +:+ "✅ Server started successfully! Waiting for requests...");
    Print "   (Press Ctrl+C to stop)";
    ServeForever ] `suffix_of` trace (serve_body W HOST port st).2.
Proof.
  intros Hb He.
  assert (Hharmless : browser_is_harmless W).
  { intros e' He'. rewrite Hb in He'. by injection He' as <-. }
  destruct (serve_body_run HOST port st Hharmless) as (L & Hrun & _ & _ & Hsuf).
  apply trace_of_runs in Hrun as [-> ->]. split; [done|].
  by apply suffix_app_r, Hsuf.
Qed.

(** [show_network_info] when the name lookup succeeds. *)
Lemma show_network_info_run PORT ip st :
  host_by_name W (hostname W) = Some ip ->
  exists L,
    runs (show_network_info W PORT) st (Return tt) L /\
    L = [ Print (Py.nl +:+ "🌐 Network Information:");
          Print ("   • Computer Name: " +:+ hostname W);
          Print ("   • Local IP Address: " +:+ ip);
          Print ("   • For mobile testing, use: http://" +:+ ip +:+ ":" +:+ Py.str PORT);
          Print "   • Make sure your mobile device is on the same WiFi network" ].
Proof.
  intros Hip. eexists. split.
  - unfold show_network_info. apply runs_try_except_return.
    unfold gethostname. eapply runs_bind; [apply runs_ret|]. cbv beta.
    unfold gethostbyname. rewrite Hip.
    repeat run_step.
  - reflexivity.
Qed.

End Confined.

(** X13.  With [PORT] unset and the host name resolved to [ip], the
    script starts by printing its title and the network information, and
    the address it gives for mobile testing is [http://ip:8000]: it is
    made from the module constant [PORT], before any port is looked for,
    so it names 8000 whichever port the server is then built on. *)
Theorem advertised_port_is_module_PORT (W : world) (ip : string) :
  environ W !! "PORT" = None ->
  host_by_name W (hostname W) = Some ip ->
  exists rest,
    events W =
      [ Print "🎯 Your-Work Innovations Website Server";
        Print ("   A simple HTTP server for testing your responsive website" +:+ Py.nl);
        Print (Py.nl +:+ "🌐 Network Information:");
        Print ("   • Computer Name: " +:+ hostname W);
        Print ("   • Local IP Address: " +:+ ip);
        Print ("   • For mobile testing, use: http://" +:+ ip +:+ ":8000");
        Print "   • Make sure your mobile device is on the same WiFi network" ]
      ++ rest /\
    Forall (allowed W 8000 (default "0.0.0.0" (environ W !! "HOST"))) rest.
Proof.
  intros Henv Hip. unfold events, run, script.
  erewrite bind_return.
  2:{ unfold module_PORT. rewrite Henv. reflexivity. }
  erewrite bind_return by reflexivity.
  set (HOST := default "0.0.0.0" (environ W !! "HOST")).
  unfold main.
  erewrite bind_return by reflexivity.
  erewrite bind_return by reflexivity.
  destruct (show_network_info_run W 8000 ip
              (after (after (initial W)
                 [Print "🎯 Your-Work Innovations Website Server"])
                 [Print ("   A simple HTTP server for testing your responsive website" +:+ Py.nl)])
              Hip) as (L & Hrun & ->).
  erewrite bind_return by exact Hrun.
  destruct (start_server_emits W 8000 HOST
              (after (after (after (initial W)
                 [Print "🎯 Your-Work Innovations Website Server"])
                 [Print ("   A simple HTTP server for testing your responsive website" +:+ Py.nl)])
                 [ Print (Py.nl +:+ "🌐 Network Information:");
                   Print ("   • Computer Name: " +:+ hostname W);
                   Print ("   • Local IP Address: " +:+ ip);
                   Print ("   • For mobile testing, use: http://" +:+ ip +:+ ":" +:+ Py.str 8000);
                   Print "   • Make sure your mobile device is on the same WiFi network" ]))
    as (rest & E & F).
  exists rest. split; [|exact F].
  rewrite E. reflexivity.
Qed.

(** X18.  With [PORT] unset, when the host name cannot be resolved the
    script prints its title and one line about the failure, and then runs
    [start_server] all the same, with 8000 as first candidate port and
    with [HOST] taken from the environment, [0.0.0.0] when it is unset. *)
Theorem lookup_failure_is_not_fatal (W : world) :
  environ W !! "PORT" = None ->
  host_by_name W (hostname W) = None ->
  exists msg,
    run W =
      start_server W 8000 (default "0.0.0.0" (environ W !! "HOST"))
        (after (initial W)
           [ Print "🎯 Your-Work Innovations Website Server";
             Print ("   A simple HTTP server for testing your responsive website" +:+ Py.nl);
             Print ("Could not determine network info: " +:+ msg) ]).
Proof.
  intros Henv Hip. eexists. unfold run, script.
  erewrite bind_return.
  2:{ unfold module_PORT. rewrite Henv. reflexivity. }
  erewrite bind_return by reflexivity.
  unfold main.
  erewrite bind_return by reflexivity.
  erewrite bind_return by reflexivity.
  erewrite bind_return.
  2:{ unfold show_network_info.
      erewrite (try_except_caught _ _ _ _
                  (Py.OSError "[Errno -2] Name or service not known"));
        [reflexivity| |reflexivity].
      unfold gethostname. erewrite bind_return by reflexivity.
      apply bind_raise. unfold gethostbyname. rewrite Hip. reflexivity. }
  reflexivity.
Qed.

Lemma no_dns_still_starts :
  exists msg,
    run Examples.no_dns =
      start_server Examples.no_dns 8000
        (default "0.0.0.0" (environ Examples.no_dns !! "HOST"))
        (after (initial Examples.no_dns)
           [ Print "🎯 Your-Work Innovations Website Server";
             Print ("   A simple HTTP server for testing your responsive website" +:+ Py.nl);
             Print ("Could not determine network info: " +:+ msg) ]).
Proof.
  apply (lookup_failure_is_not_fatal Examples.no_dns); reflexivity.
Defined.

Lemma dev_box_index :
  joinpath (script_dir Examples.dev_box) "index.html" ∈ files Examples.dev_box.
Proof. refine (bool_decide_unpack _ _). vm_compute. exact I. Defined.

Lemma dev_box_resolves_8003 :
  (find_free_port Examples.dev_box 8000 10 (initial Examples.dev_box)).1
    = Return 8003.
Proof. vm_compute. reflexivity. Defined.

Lemma dev_box_listens_on_8003 :
  exists evs rest,
    trace (start_server Examples.dev_box 8000 "0.0.0.0"
             (initial Examples.dev_box)).2 =
      trace (initial Examples.dev_box) ++ evs ++ Listen "0.0.0.0" 8003 :: rest /\
    Forall preparation evs /\
    Forall (fun e => is_Listen e = false) rest.
Proof.
  exact (listener_uses_resolved_port Examples.dev_box 8000 "0.0.0.0" 8003
           (initial Examples.dev_box) (initial Examples.dev_box)
           dev_box_index dev_box_resolves_8003).
Defined.

Lemma dev_box_browser_is_harmless : browser_is_harmless Examples.dev_box.
Proof. intros e H. discriminate H. Defined.

Lemma dev_box_closes_on_interrupt :
  (start_server Examples.dev_box 8000 "0.0.0.0" (initial Examples.dev_box)).1
    = Return tt /\
  ([ServeForever; ServerClose] ++ farewell Py.KeyboardInterrupt)
    `suffix_of`
    trace (start_server Examples.dev_box 8000 "0.0.0.0"
             (initial Examples.dev_box)).2.
Proof.
  apply (serve_loop_end_closes_server Examples.dev_box 8000 "0.0.0.0" 8003
           (initial Examples.dev_box) (initial Examples.dev_box)
           Py.KeyboardInterrupt dev_box_index dev_box_resolves_8003).
  - reflexivity.
  - exact dev_box_browser_is_harmless.
  - reflexivity.
Defined.

Lemma bind_fails_index :
  joinpath (script_dir Examples.bind_fails) "index.html" ∈ files Examples.bind_fails.
Proof. refine (bool_decide_unpack _ _). vm_compute. exact I. Defined.

Lemma bind_fails_resolves_8000 :
  (find_free_port Examples.bind_fails 8000 10 (initial Examples.bind_fails)).1
    = Return 8000.
Proof. vm_compute. reflexivity. Defined.

Lemma bind_fails_is_reported :
  exists evs,
    Forall preparation evs /\
    start_server Examples.bind_fails 8000 "0.0.0.0" (initial Examples.bind_fails) =
      (Return tt,
       mkState (script_dir Examples.bind_fails)
         (trace (initial Examples.bind_fails) ++ evs ++
          Listen "0.0.0.0" 8000 :: ServerClose
          :: farewell (Py.OSError "[Errno 98] Address already in use"))).
Proof.
  apply (bind_failure_is_reported Examples.bind_fails 8000 "0.0.0.0" 8000
           (initial Examples.bind_fails) (initial Examples.bind_fails)
           (Py.OSError "[Errno 98] Address already in use")
           bind_fails_index bind_fails_resolves_8000).
  reflexivity.
Defined.

Lemma no_browser_still_serves :
  (serve_body Examples.no_browser "0.0.0.0" 8000
     (initial Examples.no_browser)).1 = serve_outcome Examples.no_browser /\
  [ OpenBrowser (server_url "0.0.0.0" 8000);
    Print ("Could not open browser automatically: " +:+
           Py.str_exn (Py.OtherException "could not locate runnable browser"));
    Print ("Please manually open: " +:+ server_url "0.0.0.0" 8000);
    Print (Py.nl +:+ "✅ Server started successfully! Waiting for requests...");
    Print "   (Press Ctrl+C to stop)";
    ServeForever ]
    `suffix_of`
    trace (serve_body Examples.no_browser "0.0.0.0" 8000
             (initial Examples.no_browser)).2.
Proof.
  apply (browser_failure_is_not_fatal Examples.no_browser "0.0.0.0" 8000
           (initial Examples.no_browser)
           (Py.OtherException "could not locate runnable browser"));
    reflexivity.
Defined.

Lemma dev_box_advertises_8000 :
  exists rest,
    events Examples.dev_box =
      [ Print "🎯 Your-Work Innovations Website Server";
        Print ("   A simple HTTP server for testing your responsive website" +:+ Py.nl);
        Print (Py.nl +:+ "🌐 Network Information:");
        Print ("   • Computer Name: " +:+ hostname Examples.dev_box);
        Print ("   • Local IP Address: " +:+ "10.0.0.2");
        Print ("   • For mobile testing, use: http://" +:+ "10.0.0.2" +:+ ":8000");
        Print "   • Make sure your mobile device is on the same WiFi network" ]
      ++ rest /\
    Forall (allowed Examples.dev_box 8000
              (default "0.0.0.0" (environ Examples.dev_box !! "HOST"))) rest.
Proof.
  apply (advertised_port_is_module_PORT Examples.dev_box "10.0.0.2"); reflexivity.
Defined.

End Startup.

(** ** More on the request handler *)

Module Handler.
Import Http HttpFacts.

Section Updates.
Variable S : site.
Local Abbreviation Custom := (CustomHTTPRequestHandler S).
Local Abbreviation updates := (rtc (update S)).

Lemma send_response_only_updates code m h :
  updates h (send_response_only S code m h).
Proof.
  unfold send_response_only. case_decide; [done|].
  by apply rtc_once, update_buffer.
Qed.

Lemma send_header_updates k v h : updates h (send_header k v h).
Proof.
  unfold send_header.
  assert (H1 : updates h
            (if decide (request_version h = "HTTP/0.9") then h
             else set_headers_buffer (headers_buffer h ++ [Header k v]) h)).
  { case_decide; [done|]. by apply rtc_once, update_buffer. }
  repeat case_decide; try done;
    (eapply rtc_r; [exact H1|apply update_close]).
Qed.

Lemma base_end_headers_updates h : updates h (base_end_headers h).
Proof.
  unfold base_end_headers, flush_headers. case_decide; [done|].
  eapply rtc_l; [by apply (update_buffer S h (headers_buffer h ++ [Blank]))|].
  eapply rtc_l; [by apply update_head|].
  by apply rtc_once, update_buffer.
Qed.

Lemma log_message_updates m h : updates h (log_message (methods := Custom) m h).
Proof. apply rtc_once, update_print. Qed.

Lemma write_body_updates d h : updates h (write (Body d) h).
Proof. apply rtc_once, update_body. Qed.

(** From the last call of a block back to its first. *)
Ltac upd :=
  lazymatch goal with
  | |- rtc _ ?h ?h => apply rtc_refl
  | |- rtc _ _ (send_header _ _ ?x) =>
      transitivity x; [|apply send_header_updates]
  | |- rtc _ _ (send_response_only _ _ _ ?x) =>
      transitivity x; [|apply send_response_only_updates]
  | |- rtc _ _ (base_end_headers ?x) =>
      transitivity x; [|apply base_end_headers_updates]
  | |- rtc _ _ (log_message _ ?x) =>
      transitivity x; [|apply log_message_updates]
  | |- rtc _ _ (write (Body _) ?x) =>
      transitivity x; [|apply write_body_updates]
  end.

Lemma end_headers_updates h : updates h (end_headers (methods := Custom) h).
Proof.
  cbn [end_headers Custom CustomHTTPRequestHandler]. unfold custom_end_headers.
  repeat upd.
Qed.

Lemma send_response_updates code m h :
  updates h (send_response S (self := Custom) code m h).
Proof. unfold send_response, log_request. repeat upd. Qed.

Ltac upd2 :=
  lazymatch goal with
  | |- rtc _ _ (end_headers ?x) =>
      transitivity x; [|apply end_headers_updates]
  | |- rtc _ _ (send_response _ _ _ ?x) =>
      transitivity x; [|apply send_response_updates]
  | |- _ => upd
  end.

Lemma send_error_updates code m ex h :
  updates h (send_error S (self := Custom) code m ex h).
Proof.
  unfold send_error, log_error.
  destruct (default ("???", "???") (responses S code)) as [shortmsg longmsg].
  destruct (_ && _)%bool; [destruct (_ && _)%bool|]; repeat upd2.
Qed.

Lemma send_head_updates h : updates h (send_head S (self := Custom) h).1.
Proof.
  unfold send_head.
  destruct (resolve S (path h) (headers h)) as [?|[[??]|]| | |????]; cbn [fst];
    first [ apply send_error_updates | repeat upd2 ].
Qed.

Lemma base_do_GET_updates h : updates h (base_do_GET S (self := Custom) h).
Proof.
  unfold base_do_GET. pose proof (send_head_updates h) as H.
  destruct (send_head S h) as [h' [f|]]; cbn [fst] in H; [|done].
  case_bool_decide; [done|]. etrans; [exact H|apply write_body_updates].
Qed.

(** What [do_GET] of main.py does first. *)
Lemma dispatch_updates h :
  updates
    (if decide (command h = "GET" /\ path h = "/")
     then set_path "/index.html" h else h)
    (dispatch S h).
Proof.
  unfold dispatch, do_GET, do_HEAD.
  destruct (decide (command h = "GET")) as [Hc|Hc].
  - destruct (decide (path h = "/")) as [Hp|Hp].
    + rewrite decide_True by done. apply base_do_GET_updates.
    + rewrite decide_False by tauto. apply base_do_GET_updates.
  - rewrite decide_False by tauto.
    case_decide; [apply send_head_updates|apply send_error_updates].
Qed.

(** Every update leaves the request as it was parsed. *)
Lemma updates_keep_request h h' :
  updates h h' ->
  requestline h' = requestline h /\ command h' = command h /\
  path h' = path h /\ request_version h' = request_version h /\
  headers h' = headers h.
Proof.
  induction 1 as [h|h y h' Hstep _ IH]; [done|].
  destruct IH as (-> & -> & -> & -> & ->).
  by destruct Hstep.
Qed.

(** For an HTTP/0.9 request an update leaves the header buffer alone
    and writes body bytes at most. *)
Lemma updates_http09 h h' :
  updates h h' ->
  request_version h = "HTTP/0.9" ->
  headers_buffer h' = headers_buffer h /\
  exists bodies, wfile h' = wfile h ++ bodies /\ Forall is_body bodies.
Proof.
  induction 1 as [h|h y h' Hstep _ IH]; intros Hv.
  - split; [done|]. exists []. by rewrite app_nil_r.
  - destruct Hstep as [h b Hn|h ls Hn|h d|h b|h m]; try done.
    + destruct (IH Hv) as (-> & bodies & -> & F). split; [done|].
      exists (Body d :: bodies). cbn [wfile write]. rewrite <- app_assoc.
      split; [done|]. by constructor.
    + by destruct (IH Hv) as (-> & bodies & -> & F); eauto.
    + by destruct (IH Hv) as (-> & bodies & -> & F); eauto.
Qed.

End Updates.

(** X14.  Handling a request that [parse_request] has accepted leaves
    the request line, the command, the version and the request headers
    as they were parsed, and changes the path in one case only: a GET
    whose path is exactly [/] goes on as [/index.html].  A HEAD for [/],
    or a GET for [/?a=1], keeps its path. *)
Theorem handler_keeps_the_request (S : site) (h : handler) :
  requestline (dispatch S h) = requestline h /\
  command (dispatch S h) = command h /\
  request_version (dispatch S h) = request_version h /\
  headers (dispatch S h) = headers h /\
  path (dispatch S h) =
    (if decide (command h = "GET" /\ path h = "/")
     then "/index.html" else path h).
Proof.
  destruct (updates_keep_request S _ _ (dispatch_updates S h))
    as (-> & -> & -> & -> & ->).
  by case_decide.
Qed.

(** X15.  While an accepted HTTP/0.9 request is handled nothing is
    added to the header buffer and nothing but body bytes is written to
    the connection: no status line and no header, injected or not. *)
Theorem http09_reply_is_body_only (S : site) (h : handler) :
  request_version h = "HTTP/0.9" ->
  headers_buffer (dispatch S h) = headers_buffer h /\
  exists bodies,
    wfile (dispatch S h) = wfile h ++ bodies /\
    Forall is_body bodies.
Proof.
  intros Hv.
  destruct (updates_http09 S _ _ (dispatch_updates S h))
    as (Eb & bodies & Ew & F).
  { by case_decide. }
  rewrite Eb, Ew. by case_decide; eauto.
Qed.

Section Logs.
Variable S : site.
Local Abbreviation Custom := (CustomHTTPRequestHandler S).






Lemma requestline_updates (f : handler -> handler) h :
  rtc (update S) h (f h) -> requestline (f h) = requestline h.
Proof. intros H. by destruct (updates_keep_request S _ _ H) as [-> _]. Qed.








End Logs.


(** X17.  The overridden [end_headers] leaves [close_connection] as it
    is: none of the six injected headers is a [Connection] header. *)
Theorem injection_keeps_the_connection (h : handler) :
  close_connection (custom_end_headers h) = close_connection h.
Proof.
  assert (Hk : forall k v h0, lower k <> "connection" ->
            close_connection (send_header k v h0) = close_connection h0).
  { intros k v h0 Hk. unfold send_header.
    rewrite decide_False by done. by case_decide. }
  unfold custom_end_headers.
  assert (Hb : forall h0, close_connection (base_end_headers h0) = close_connection h0).
  { intros h0. unfold base_end_headers. by case_decide. }
  rewrite Hb.
  rewrite !Hk; first done; intros H; vm_compute in H; discriminate H.
Qed.

Lemma http09_get_is_body_only :
  headers_buffer (dispatch Examples.one_page
                    (accepted "GET /" "GET" "/" "HTTP/0.9" [])) = [] /\
  exists bodies,
    wfile (dispatch Examples.one_page
             (accepted "GET /" "GET" "/" "HTTP/0.9" [])) = [] ++ bodies /\
    Forall is_body bodies.
Proof.
  apply (http09_reply_is_body_only Examples.one_page
           (accepted "GET /" "GET" "/" "HTTP/0.9" [])).
  reflexivity.
Defined.

End Handler.

(** ** Requests as they arrive *)

Module Requests.
Import Http HttpFacts Handler.
Local Open Scope Z_scope.

Lemma protocol_is_1_0 : Py.str_ge protocol_version "HTTP/1.1" = false.
Proof. vm_compute. reflexivity. Qed.


Section Inbound.
Variable S : site.
Local Abbreviation Custom := (CustomHTTPRequestHandler S).

(** What a call that obeys the rules of [update] has written. *)
Lemma updates_served h0 h :
  rtc (update S) h0 h ->
  (request_version h0 <> "HTTP/0.9" -> replied h0 h) ->
  headers_buffer h0 = [] ->
  served (wfile h0) h /\ request_version h = request_version h0.
Proof.
  intros U R Hb.
  destruct (updates_keep_request S _ _ U) as (_ & _ & _ & Hv & _).
  split; [|exact Hv]. unfold served. rewrite Hv. split.
  - intros Hn. destruct (R Hn) as (code & msg & pre & rest & E & F).
    rewrite Hb in E. by exists code, msg, pre, rest.
  - intros He. destruct (updates_http09 S _ _ U He) as (_ & bodies & E & F).
    by exists bodies.
Qed.

Lemma send_error_served code m ex h :
  headers_buffer h = [] ->
  served (wfile h) (send_error S (self := Custom) code m ex h) /\
  request_version (send_error S (self := Custom) code m ex h) = request_version h.
Proof.
  apply updates_served; [apply send_error_updates|apply send_error_replied].
Qed.


Lemma send_error_outcome code m ex h w v :
  headers_buffer h = [] ->
  wfile h = w ->
  request_version h = v ->
  parse_outcome w v (false, send_error S (self := Custom) code m ex h).
Proof.
  intros Hb <- <-. unfold parse_outcome. by apply send_error_served.
Qed.

Lemma read_headers_outcome r h w v :
  headers_buffer h = [] ->
  close_connection h = true ->
  wfile h = w ->
  request_version h = v ->
  parse_outcome w v (read_headers S (self := Custom) r h).
Proof.
  intros Hb Hc Hw Hv. unfold read_headers.
  destruct (header_lines r) as [[err|err]|hdrs].
  - by apply send_error_outcome.
  - by apply send_error_outcome.
  - rewrite protocol_is_1_0, !andb_false_r. cbn [andb]. cbv zeta iota.
    unfold parse_outcome. case_bool_decide; repeat split; assumption.
Qed.

Lemma read_command_outcome r words h w v :
  headers_buffer h = [] ->
  close_connection h = true ->
  (2 <= length words)%nat ->
  wfile h = w ->
  request_version h = v ->
  parse_outcome w v (read_command S (self := Custom) r words h).
Proof.
  intros Hb Hc Hlen Hw Hv.
  destruct words as [|c [|p rest]]; cbn [length] in Hlen; try lia.
  unfold read_command.
  set (h1 := if (length (c :: p :: rest) =? 2)%nat
             then set_close_connection true h else h).
  assert (H1 : headers_buffer h1 = [] /\ close_connection h1 = true /\
               wfile h1 = w /\ request_version h1 = v).
  { unfold h1. by destruct (_ =? _)%nat. }
  destruct H1 as (Hb1 & Hc1 & Hw1 & Hv1). cbv zeta.
  destruct (_ && _).
  - apply send_error_outcome; assumption.
  - destruct (Py.startswith [47; 47] p);
      apply read_headers_outcome; assumption.
Qed.

Lemma parse_request_outcome r h0 :
  headers_buffer h0 = [] ->
  parse_outcome (wfile h0) (parsed_version r)
    (parse_request S (self := Custom) r h0).
Proof.
  intros Hb. unfold parse_request, parsed_version. cbv zeta.
  set (line := Py.rstrip_by _ _).
  set (words := Py.split line).
  set (h1 := set_requestline _ _).
  assert (Hb1 : headers_buffer h1 = []) by exact Hb.
  assert (Hc1 : close_connection h1 = true) by reflexivity.
  assert (Hw1 : wfile h1 = wfile h0) by reflexivity.
  assert (Hv1 : request_version h1 = default_request_version) by reflexivity.
  clearbody h1.
  destruct (length words =? 0)%nat eqn:E0.
  { apply Nat.eqb_eq in E0. rewrite E0. cbn [Nat.leb].
    unfold parse_outcome, served. rewrite Hv1, Hw1. split; [|reflexivity].
    split; [by intros []|]. intros _. exists []. by rewrite app_nil_r. }
  unfold read_version.
  destruct (3 <=? length words)%nat eqn:E3.
  - destruct (version_number (List.last words [])) as [[base number]|].
    + rewrite protocol_is_1_0, andb_false_r. cbv iota.
      destruct (Py.pair_ge number (2, 0)).
      * apply send_error_outcome; assumption.
      * apply Nat.leb_le in E3.
        set (h2 := set_request_version (Py.text (List.last words [])) h1).
        destruct (negb _).
        -- apply send_error_outcome; [exact Hb1|exact Hw1|reflexivity].
        -- apply read_command_outcome;
             [exact Hb1|exact Hc1|lia|exact Hw1|reflexivity].
    + apply send_error_outcome; assumption.
  - destruct (negb _) eqn:E23.
    + apply send_error_outcome; assumption.
    + apply read_command_outcome; try assumption.
      apply negb_false_iff, andb_true_iff in E23 as [E2 _].
      by apply Nat.leb_le in E2.
Qed.


(** A request that [handle_one_request] parses and accepts goes to the
    method of its command. *)
Lemma parse_request_no_line r h :
  raw_requestline r = "" ->
  (parse_request S (self := Custom) r h).1 = false.
Proof. intros E. unfold parse_request. rewrite E. reflexivity. Qed.

Lemma handle_accepted r h0 :
  Z.of_nat (String.length (raw_requestline r)) <= 65536 ->
  parsed S r = (true, h0) ->
  handle_one_request S r connected = dispatch S h0 /\
  wfile h0 = [] /\ headers_buffer h0 = [] /\ close_connection h0 = true.
Proof.
  intros Hlen Hp. unfold parsed in Hp.
  pose proof (parse_request_outcome r connected eq_refl) as H.
  rewrite Hp in H. destruct H as (Hw & Hb & Hc & _).
  split; [|done].
  unfold handle_one_request.
  apply Z.ltb_ge in Hlen. rewrite Hlen.
  case_bool_decide as Eraw.
  - apply (parse_request_no_line r connected) in Eraw.
    rewrite Hp in Eraw. discriminate Eraw.
  - by rewrite Hp.
Qed.

Lemma do_GET_file h ctype size last_modified content :
  resolve S (path h) (headers h) = File ctype size last_modified content ->
  request_version h <> "HTTP/0.9" ->
  wfile h = [] ->
  headers_buffer h = [] ->
  exists msg,
    wfile (base_do_GET S (self := Custom) h) =
      file_reply S msg ctype size last_modified content.
Proof.
  intros Hres Hv Hw Hb. unfold base_do_GET, send_head. rewrite Hres.
  assert (B0 : buffered h h []) by (repeat split; by rewrite app_nil_r).
  destruct (then_send_response S h h [] 200 None Hv B0) as [msg B1].
  pose proof (then_send_header _ _ _ "Content-type" ctype Hv B1) as B2.
  pose proof (then_send_header _ _ _ "Content-Length" (Py.str size) Hv B2) as B3.
  pose proof (then_send_header _ _ _ "Last-Modified" last_modified Hv B3) as B4.
  destruct (then_end_headers S _ _ _ Hv B4) as (_ & _ & E).
  rewrite Hw, Hb in E. exists msg. unfold file_reply.
  case_bool_decide; cbn [wfile write]; rewrite E; reflexivity.
Qed.

End Inbound.

Section Closing.
Variable S : site.
Local Abbreviation Custom := (CustomHTTPRequestHandler S).

Lemma close_send_header k v h :
  lower k <> "connection" ->
  close_connection (send_header k v h) = close_connection h.
Proof.
  intros Hk. unfold send_header. rewrite (decide_False _ _ Hk). by case_decide.
Qed.

Lemma close_send_header_close h :
  close_connection (send_header "Connection" "close" h) = true.
Proof.
  unfold send_header.
  destruct (decide (lower "Connection" = "connection")) as [_|H];
    [|by destruct H].
  destruct (decide (lower "close" = "close")) as [_|H]; [|by destruct H].
  reflexivity.
Qed.

Lemma close_send_response_only code m h :
  close_connection (send_response_only S code m h) = close_connection h.
Proof. unfold send_response_only. by case_decide. Qed.

Lemma close_base_end_headers h :
  close_connection (base_end_headers h) = close_connection h.
Proof. unfold base_end_headers. by case_decide. Qed.

Ltac other_header :=
  rewrite close_send_header
    by (let H := fresh in intros H; vm_compute in H; discriminate H).

Lemma close_end_headers h :
  close_connection (end_headers (methods := Custom) h) = close_connection h.
Proof.
  cbn [end_headers Custom CustomHTTPRequestHandler]. unfold custom_end_headers.
  rewrite close_base_end_headers. by repeat other_header.
Qed.

Lemma close_send_response code m h :
  close_connection (send_response S (self := Custom) code m h) =
    close_connection h.
Proof.
  unfold send_response, log_request. repeat other_header.
  by rewrite close_send_response_only.
Qed.

Lemma close_send_error code m ex h :
  close_connection (send_error S (self := Custom) code m ex h) = true.
Proof.
  unfold send_error, log_error.
  destruct (default ("???", "???") (responses S code)) as [shortmsg longmsg].
  destruct (_ && _)%bool.
  - assert (E : forall h1 : handler, close_connection h1 = true ->
              forall b d, close_connection (if b : bool then write d h1 else h1) = true)
      by (by intros h1 E1 [] d).
    apply E. rewrite close_end_headers. repeat other_header.
    apply close_send_header_close.
  - rewrite close_end_headers. apply close_send_header_close.
Qed.

Lemma close_send_head h :
  close_connection h = true ->
  close_connection (send_head S (self := Custom) h).1 = true.
Proof.
  intros Hc. unfold send_head.
  destruct (resolve S (path h) (headers h)) as [?|[[??]|]| | |????]; cbn [fst];
    try apply close_send_error;
    rewrite close_end_headers; repeat other_header;
    by rewrite close_send_response.
Qed.

Lemma close_base_do_GET h :
  close_connection h = true ->
  close_connection (base_do_GET S (self := Custom) h) = true.
Proof.
  intros Hc. unfold base_do_GET. pose proof (close_send_head h Hc) as H.
  destruct (send_head S h) as [h' [f|]]; cbn [fst] in H; [|exact H].
  by case_bool_decide.
Qed.

Lemma close_dispatch h :
  close_connection h = true -> close_connection (dispatch S h) = true.
Proof.
  intros Hc. unfold dispatch, do_GET, do_HEAD. repeat case_decide.
  - by apply (close_base_do_GET (set_path "/index.html" h)).
  - by apply close_base_do_GET.
  - by apply close_send_head.
  - apply close_send_error.
Qed.

Lemma close_read_headers r h :
  close_connection h = true ->
  close_connection (read_headers S (self := Custom) r h).2 = true.
Proof.
  intros Hc. unfold read_headers.
  destruct (header_lines r) as [[err|err]|hdrs]; cbn [snd];
    try apply close_send_error.
  rewrite protocol_is_1_0, !andb_false_r. cbn [andb]. cbv zeta iota.
  by case_bool_decide.
Qed.

Lemma close_read_command r words h :
  close_connection h = true ->
  close_connection (read_command S (self := Custom) r words h).2 = true.
Proof.
  intros Hc. destruct words as [|c [|p rest]]; [exact Hc..|].
  unfold read_command.
  set (h1 := if (length (c :: p :: rest) =? 2)%nat
             then set_close_connection true h else h).
  assert (Hc1 : close_connection h1 = true)
    by (unfold h1; by destruct (_ =? _)%nat).
  cbv zeta. destruct (_ && _); [apply close_send_error|].
  destruct (Py.startswith [47; 47] p); by apply close_read_headers.
Qed.

Lemma close_parse_request r h :
  close_connection (parse_request S (self := Custom) r h).2 = true.
Proof.
  unfold parse_request. cbv zeta.
  set (words := Py.split _).
  set (h1 := set_requestline _ _).
  assert (Hc1 : close_connection h1 = true) by reflexivity.
  clearbody h1.
  destruct (length words =? 0)%nat; [exact Hc1|].
  unfold read_version.
  destruct (3 <=? length words)%nat.
  - destruct (version_number (List.last words [])) as [[base number]|];
      [|apply close_send_error].
    rewrite protocol_is_1_0, andb_false_r. cbv iota.
    destruct (Py.pair_ge number (2, 0)); [apply close_send_error|].
    destruct (negb _); [apply close_send_error|].
    by apply close_read_command.
  - destruct (negb _); [apply close_send_error|].
    by apply close_read_command.
Qed.

Lemma close_handle_one_request r h :
  close_connection (handle_one_request S r h) = true.
Proof.
  unfold handle_one_request.
  destruct (_ <? _); [apply close_send_error|].
  case_bool_decide; [reflexivity|].
  pose proof (close_parse_request r h) as Hc.
  destruct (parse_request S r h) as [[|] h']; cbn [snd] in Hc; cbv beta iota.
  - by apply close_dispatch.
  - exact Hc.
Qed.

End Closing.


(** C5 (amended).  A request that is parsed as a GET for [/] is
    rewritten to [/index.html] before resolution: the handler goes on
    with that path and does what the library's [do_GET] does for it; it
    writes the very bytes that an explicit GET for [/index.html] with
    the same version and headers is answered with; and where
    [/index.html] resolves to a file, these bytes are the 200 reply with
    the headers of that file, followed by its content. *)
Theorem root_is_served_as_index (S : site) (r : inbound) (h0 : handler) :
  Z.of_nat (String.length (raw_requestline r)) <= 65536 ->
  parsed S r = (true, h0) ->
  command h0 = "GET" ->
  path h0 = "/" ->
  let h := handle_one_request S r connected in
  path h = "/index.html" /\
  h = base_do_GET S (self := CustomHTTPRequestHandler S)
        (set_path "/index.html" h0) /\
  (forall r' h0',
      Z.of_nat (String.length (raw_requestline r')) <= 65536 ->
      parsed S r' = (true, h0') ->
      command h0' = "GET" ->
      path h0' = "/index.html" ->
      request_version h0' = request_version h0 ->
      headers h0' = headers h0 ->
      wfile (handle_one_request S r' connected) = wfile h) /\
  (forall ctype size last_modified content,
      resolve S "/index.html" (headers h0) =
        File ctype size last_modified content ->
      request_version h0 <> "HTTP/0.9" ->
      exists msg, wfile h = file_reply S msg ctype size last_modified content).
Proof.
  intros Hlen Hp Hc Hpath h.
  destruct (handle_accepted S r h0 Hlen Hp) as (E & Hw & Hb & Hclose).
  assert (Eh : h = base_do_GET S (self := CustomHTTPRequestHandler S)
                     (set_path "/index.html" h0)).
  { unfold h. rewrite E. unfold dispatch, do_GET.
    rewrite (decide_True _ _ Hc), (decide_True _ _ Hpath). reflexivity. }
  split; [|split; [exact Eh|split]].
  - rewrite Eh.
    by destruct (updates_keep_request S _ _
                   (base_do_GET_updates S (set_path "/index.html" h0)))
      as (_ & _ & -> & _).
  - intros r' h0' Hlen' Hp' Hc' Hpath' Hv' Hh'.
    destruct (handle_accepted S r' h0' Hlen' Hp') as (E' & Hw' & Hb' & Hclose').
    rewrite E', Eh. unfold dispatch, do_GET.
    rewrite (decide_True _ _ Hc'), decide_False
      by (rewrite Hpath'; discriminate).
    apply (base_do_GET_same S h0' (set_path "/index.html" h0)).
    unfold same_reply. cbn [command path request_version headers
      headers_buffer wfile close_connection set_path].
    repeat split; congruence.
  - intros ctype size last_modified content Hres Hv.
    rewrite Eh. by apply do_GET_file.
Qed.



Lemma get_root_is_index :
  let r := Examples.request "GET / HTTP/1.1" in
  let h0 := accepted "GET / HTTP/1.1" "GET" "/" "HTTP/1.1" [] in
  let h := handle_one_request Examples.one_page r connected in
  path h = "/index.html" /\
  h = base_do_GET Examples.one_page
        (self := CustomHTTPRequestHandler Examples.one_page)
        (set_path "/index.html" h0) /\
  (forall r' h0',
      Z.of_nat (String.length (raw_requestline r')) <= 65536 ->
      parsed Examples.one_page r' = (true, h0') ->
      command h0' = "GET" ->
      path h0' = "/index.html" ->
      request_version h0' = request_version h0 ->
      headers h0' = headers h0 ->
      wfile (handle_one_request Examples.one_page r' connected) = wfile h) /\
  (forall ctype size last_modified content,
      resolve Examples.one_page "/index.html" (headers h0) =
        File ctype size last_modified content ->
      request_version h0 <> "HTTP/0.9" ->
      exists msg,
        wfile h = file_reply Examples.one_page msg ctype size last_modified content).
Proof.
  intros r h0.
  apply (root_is_served_as_index Examples.one_page r h0).
  - vm_compute. discriminate.
  - vm_compute. reflexivity.
  - reflexivity.
  - reflexivity.
Defined.

(** C5 fails as stated: a HEAD for [/] is not rewritten.  Its path stays
    [/], and in a directory without [index.html] it is answered with the
    headers of the directory listing while a HEAD for [/index.html] is
    answered with 404. *)
Lemma head_root_is_not_rewritten :
  let h := handle_one_request Examples.bare_directory
             (Examples.request "HEAD / HTTP/1.1") connected in
  let h' := handle_one_request Examples.bare_directory
              (Examples.request "HEAD /index.html HTTP/1.1") connected in
  parsed Examples.bare_directory (Examples.request "HEAD / HTTP/1.1") =
    (true, accepted "HEAD / HTTP/1.1" "HEAD" "/" "HTTP/1.1" []) /\
  path h = "/" /\
  path h <> "/index.html" /\
  status_code (wfile h) = Some 200 /\
  status_code (wfile h') = Some 404 /\
  wfile h <> wfile h'.
Proof.
  intros h h'.
  assert (E : status_code (wfile h) = Some 200) by (vm_compute; reflexivity).
  assert (E' : status_code (wfile h') = Some 404) by (vm_compute; reflexivity).
  split; [vm_compute; reflexivity|].
  split; [vm_compute; reflexivity|].
  split; [vm_compute; discriminate|].
  split; [exact E|]. split; [exact E'|].
  intros H. rewrite H, E' in E. discriminate E.
Qed.

(** X19.  Every request ends with [close_connection] set: the handler
    speaks HTTP/1.0 and its error replies say [Connection: close].  So
    [handle] reads one request on a connection and answers that one; the
    requests that the client sends after it are never read. *)
Theorem one_request_per_connection
    (S : site) (r : inbound) (rs : list inbound) (h : handler) :
  close_connection (handle_one_request S r h) = true /\
  handle S (r :: rs) h = handle_one_request S r (set_close_connection true h) /\
  handle S (r :: rs) connected = handle_one_request S r connected.
Proof.
  split; [apply close_handle_one_request|].
  assert (E : forall h0, handle S (r :: rs) h0 =
                         handle_one_request S r (set_close_connection true h0)).
  { intros h0. unfold handle.
    pose proof (close_handle_one_request S r (set_close_connection true h0)) as Hc.
    destruct rs as [|r' rs']; cbn [handle_more]; by rewrite Hc. }
  split; [apply E|]. by rewrite E.
Qed.

End Requests.
